(** * Dual-instance USB CDC class driver (src/usb/usbd_cdc.c)

    A shallow embedding of the class driver and the proofs of its
    specification.  The driver is stateful C: every entry point receives
    the device handle [pdev], reads and writes the class handle that
    [pdev->pClassData] points to, the global table [ctxPointers], and calls
    out to the USB link layer and to the application's callback table.

    Modelling conventions.
    - C integers are [Z]; a C condition [if (e)] is [truthy e]; [&] is
      [Z.land].  The driver does no arithmetic on them, and the one store
      that may narrow, [hcdc->CmdLength = req->wLength], goes through the
      parameter [CmdLength_conv].
    - A pointer that the code compares with NULL is an [option]; reading or
      writing through a NULL pointer, and indexing an array outside its
      bounds, is undefined behaviour and makes the model return [None].
    - Every call that leaves the file (link layer, control pipe,
      application callback) is appended to a chronological [trace].  The
      two calls made for their result, USBD_malloc and
      USBD_LL_GetRxDataSize, are not traced: the result is an argument of
      the handler that asks for it.
    - The constants, macros and field types of the headers the file
      includes (usbd_cdc.h, cdc_descriptor.h, usbd_def.h) are parameters,
      collected in the class [Constants].
    - Application callbacks are opaque: the contents of the buffers they
      are handed are not modelled, and they are taken not to re-enter the
      driver while a handler runs.  What a callback writes through a
      pointer argument into driver-owned words ([ctxPointers + i],
      [&hcdc->RxLength[instance]]) is given by the callback table. *)

From stdpp Require Import base numbers list option.
From Stdlib Require Import ZArith Lia.

Local Open Scope Z_scope.

(** ** Constants of the absent headers *)

Class Constants : Type := {
  (* endpoint addresses, cdc_descriptor.h *)
  CDC_IN_EP : Z;
  CDC_OUT_EP : Z;
  CDC_CMD_EP : Z;
  CDC2_IN_EP : Z;
  CDC2_OUT_EP : Z;
  CDC2_CMD_EP : Z;
  CDC2_EP_MASK : Z;
  (* interface numbers of the second instance, cdc_descriptor.h *)
  USB_CDC_CIF_NUM1 : Z;
  USB_CDC_DIF_NUM1 : Z;
  (* packet sizes, usbd_cdc.h *)
  CDC_DATA_HS_IN_PACKET_SIZE : Z;
  CDC_DATA_HS_OUT_PACKET_SIZE : Z;
  CDC_DATA_FS_IN_PACKET_SIZE : Z;
  CDC_DATA_FS_OUT_PACKET_SIZE : Z;
  CDC_CMD_PACKET_SIZE : Z;
  (* usbd_def.h *)
  USBD_EP_TYPE_BULK : Z;
  USBD_EP_TYPE_INTR : Z;
  USBD_SPEED_HIGH : Z;
  USB_REQ_TYPE_MASK : Z;
  USB_REQ_TYPE_CLASS : Z;
  USB_REQ_TYPE_STANDARD : Z;
  USB_REQ_GET_INTERFACE : Z;
  USB_REQ_SET_INTERFACE : Z;
  USBD_OK : Z;
  USBD_BUSY : Z;
  USBD_FAIL : Z;
  (* the conversion [hcdc->CmdLength = req->wLength] performs: the declared
     type of the field CmdLength is in usbd_cdc.h *)
  CmdLength_conv : Z -> Z
}.

(** Modelled from the spec: the macro NUM_CDC_INSTANCES of the absent
    header cdc_descriptor.h.  The specification describes two logical
    serial interfaces, instance ids 0 and 1, and the file itself indexes
    ctxPointers[0], ctxPointers[1], RxBuffer[0] and RxBuffer[1]. *)
Definition NUM_CDC_INSTANCES : Z := 2.

(** ** Data *)

(** The two buffers and the request bytes the control pipe and the Control
    callback are handed. *)
Inductive ctl_buffer : Type :=
  | hcdc_data   (* (uint8_t * )hcdc->data, the staging buffer *)
  | ifalt_addr  (* &ifalt *)
  | req_bytes.  (* (uint8_t * )req *)

(** [static uint8_t ifalt = 0;] in USBD_CDC_Setup: never assigned. *)
Definition ifalt : Z := 0.

(** USBD_SetupReqTypedef *)
Record USBD_SetupReqTypedef : Type := {
  bmRequest : Z;
  bRequest : Z;
  wValue : Z;
  wIndex : Z;
  wLength : Z
}.

(** USBD_CDC_HandleTypeDef, the fields this file uses.  Application buffer
    pointers are addresses. *)
Record USBD_CDC_HandleTypeDef : Type := {
  CmdOpCode : Z;
  CmdLength : Z;
  RxBuffer : list Z;
  TxBuffer : list Z;
  RxLength : list Z;
  TxLength : list Z;
  TxState : list Z;
  RxState : list Z;
  ctrlInst : Z
}.

(** USBD_CDC_ItfTypeDef: the callback table.  The driver ignores every
    return value.  [Init i old] is the word the callback leaves in
    [ctxPointers[i]], which held [old]; [Receive ctx buf len] is the word
    it leaves in [*Len], which held [len].  DeInit, Control and TxComplete
    write nothing the driver reads back and occur as events only. *)
Record USBD_CDC_ItfTypeDef : Type := {
  Init : Z -> Z -> Z;
  Receive : Z -> Z -> Z -> Z
}.

(** USBD_HandleTypeDef, the fields this file uses. *)
Record USBD_HandleTypeDef : Type := {
  dev_speed : Z;
  pClassData : option USBD_CDC_HandleTypeDef;
  pUserData : option USBD_CDC_ItfTypeDef
}.

(** Calls that leave the file. *)
Inductive event : Type :=
  | USBD_LL_OpenEP (ep_addr ep_type ep_mps : Z)
  | USBD_LL_CloseEP (ep_addr : Z)
  | USBD_LL_Transmit (ep_addr pbuf size : Z)
  | USBD_LL_PrepareReceive (ep_addr pbuf size : Z)
  | USBD_CtlSendData (pbuf : ctl_buffer) (len : Z)
  | USBD_CtlPrepareRx (pbuf : ctl_buffer) (len : Z)
  | USBD_free
  | Itf_Init (i : Z)
  | Itf_DeInit (ctx : Z)
  | Itf_Control (ctx cmd : Z) (pbuf : ctl_buffer) (length : Z)
  | Itf_Receive (ctx buf len : Z)
  | Itf_TxComplete (ctx : Z).

(** The memory the driver works on: the device handle, the global
    [void *ctxPointers[NUM_CDC_INSTANCES]], and the calls made so far. *)
Record World : Type := {
  pdev : USBD_HandleTypeDef;
  ctxPointers : list Z;
  trace : list event
}.

(** *** Field updates *)

Definition set_CmdOpCode (v : Z) (h : USBD_CDC_HandleTypeDef) :=
  {| CmdOpCode := v; CmdLength := CmdLength h; RxBuffer := RxBuffer h;
     TxBuffer := TxBuffer h; RxLength := RxLength h; TxLength := TxLength h;
     TxState := TxState h; RxState := RxState h; ctrlInst := ctrlInst h |}.

Definition set_CmdLength (v : Z) (h : USBD_CDC_HandleTypeDef) :=
  {| CmdOpCode := CmdOpCode h; CmdLength := v; RxBuffer := RxBuffer h;
     TxBuffer := TxBuffer h; RxLength := RxLength h; TxLength := TxLength h;
     TxState := TxState h; RxState := RxState h; ctrlInst := ctrlInst h |}.

Definition set_RxBuffer (v : list Z) (h : USBD_CDC_HandleTypeDef) :=
  {| CmdOpCode := CmdOpCode h; CmdLength := CmdLength h; RxBuffer := v;
     TxBuffer := TxBuffer h; RxLength := RxLength h; TxLength := TxLength h;
     TxState := TxState h; RxState := RxState h; ctrlInst := ctrlInst h |}.

Definition set_TxBuffer (v : list Z) (h : USBD_CDC_HandleTypeDef) :=
  {| CmdOpCode := CmdOpCode h; CmdLength := CmdLength h; RxBuffer := RxBuffer h;
     TxBuffer := v; RxLength := RxLength h; TxLength := TxLength h;
     TxState := TxState h; RxState := RxState h; ctrlInst := ctrlInst h |}.

Definition set_RxLength (v : list Z) (h : USBD_CDC_HandleTypeDef) :=
  {| CmdOpCode := CmdOpCode h; CmdLength := CmdLength h; RxBuffer := RxBuffer h;
     TxBuffer := TxBuffer h; RxLength := v; TxLength := TxLength h;
     TxState := TxState h; RxState := RxState h; ctrlInst := ctrlInst h |}.

Definition set_TxLength (v : list Z) (h : USBD_CDC_HandleTypeDef) :=
  {| CmdOpCode := CmdOpCode h; CmdLength := CmdLength h; RxBuffer := RxBuffer h;
     TxBuffer := TxBuffer h; RxLength := RxLength h; TxLength := v;
     TxState := TxState h; RxState := RxState h; ctrlInst := ctrlInst h |}.

Definition set_TxState (v : list Z) (h : USBD_CDC_HandleTypeDef) :=
  {| CmdOpCode := CmdOpCode h; CmdLength := CmdLength h; RxBuffer := RxBuffer h;
     TxBuffer := TxBuffer h; RxLength := RxLength h; TxLength := TxLength h;
     TxState := v; RxState := RxState h; ctrlInst := ctrlInst h |}.

Definition set_RxState (v : list Z) (h : USBD_CDC_HandleTypeDef) :=
  {| CmdOpCode := CmdOpCode h; CmdLength := CmdLength h; RxBuffer := RxBuffer h;
     TxBuffer := TxBuffer h; RxLength := RxLength h; TxLength := TxLength h;
     TxState := TxState h; RxState := v; ctrlInst := ctrlInst h |}.

Definition set_ctrlInst (v : Z) (h : USBD_CDC_HandleTypeDef) :=
  {| CmdOpCode := CmdOpCode h; CmdLength := CmdLength h; RxBuffer := RxBuffer h;
     TxBuffer := TxBuffer h; RxLength := RxLength h; TxLength := TxLength h;
     TxState := TxState h; RxState := RxState h; ctrlInst := v |}.

Definition set_pClassData (v : option USBD_CDC_HandleTypeDef)
    (d : USBD_HandleTypeDef) :=
  {| dev_speed := dev_speed d; pClassData := v; pUserData := pUserData d |}.

Definition set_pUserData (v : option USBD_CDC_ItfTypeDef)
    (d : USBD_HandleTypeDef) :=
  {| dev_speed := dev_speed d; pClassData := pClassData d; pUserData := v |}.

(** ** The monad of driver code: state, trace and undefined behaviour *)

Definition M (A : Type) : Type := World -> option (A * World).

Definition ret {A} (a : A) : M A := fun w => Some (a, w).

Definition bind {A B} (m : M A) (k : A -> M B) : M B :=
  fun w => match m w with
           | Some (a, w') => k a w'
           | None => None
           end.

Notation "x <- m ;; k" := (bind m (fun x => k))
  (at level 100, m at next level, right associativity).
Notation "m ;; k" := (bind m (fun _ => k))
  (at level 100, right associativity).

(** Undefined behaviour. *)
Definition undefined {A} : M A := fun _ => None.

Definition defined {A} (o : option A) : M A :=
  match o with Some a => ret a | None => undefined end.

Definition get_pdev : M USBD_HandleTypeDef := fun w => Some (pdev w, w).

Definition put_pdev (d : USBD_HandleTypeDef) : M unit :=
  fun w => Some (tt, {| pdev := d; ctxPointers := ctxPointers w;
                        trace := trace w |}).

Definition get_ctxPointers : M (list Z) := fun w => Some (ctxPointers w, w).

Definition put_ctxPointers (c : list Z) : M unit :=
  fun w => Some (tt, {| pdev := pdev w; ctxPointers := c; trace := trace w |}).

(** An external call. *)
Definition call (e : event) : M unit :=
  fun w => Some (tt, {| pdev := pdev w; ctxPointers := ctxPointers w;
                        trace := trace w ++ [e] |}).

(** [a[i]] as an rvalue and [a[i] = v]; outside the array both are
    undefined. *)
Definition index {A} (a : list A) (i : Z) : M A :=
  if 0 <=? i then defined (a !! Z.to_nat i) else undefined.

Definition assign {A} (a : list A) (i : Z) (v : A) : M (list A) :=
  if (0 <=? i) && (i <? Z.of_nat (length a))
  then ret (<[Z.to_nat i := v]> a)
  else undefined.

(** [hcdc->...] as an rvalue, and an update of the object [hcdc] points to.
    [hcdc] is [pdev->pClassData]. *)
Definition hcdc_read : M USBD_CDC_HandleTypeDef :=
  d <- get_pdev ;; defined (pClassData d).

Definition hcdc_write (f : USBD_CDC_HandleTypeDef -> USBD_CDC_HandleTypeDef)
    : M unit :=
  d <- get_pdev ;;
  h <- defined (pClassData d) ;;
  put_pdev (set_pClassData (Some (f h)) d).

(** [(USBD_CDC_ItfTypeDef * )pdev->pUserData], dereferenced. *)
Definition fops_read : M USBD_CDC_ItfTypeDef :=
  d <- get_pdev ;; defined (pUserData d).

Definition truthy (z : Z) : bool := negb (z =? 0).

(** [for (int i = 0; i < n; i++) body] *)
Fixpoint for_each (range : list Z) (body : Z -> M unit) : M unit :=
  match range with
  | [] => ret tt
  | i :: rest => body i ;; for_each rest body
  end.

(** ** The driver *)

Section Driver.

Context `{Constants}.

(** The instance an endpoint number belongs to: the first lines of
    USBD_CDC_DataIn and USBD_CDC_DataOut.
<<
  int instance = 0;
  if (epnum & CDC2_EP_MASK) { instance = 1; }
>> *)
Definition instance_of_epnum (epnum : Z) : Z :=
  if truthy (Z.land epnum CDC2_EP_MASK) then 1 else 0.

(** The instance a control request is addressed to: the first lines of
    USBD_CDC_Setup.
<<
  int instance = 0;
  if ((req->wIndex == USB_CDC_CIF_NUM1) || (req->wIndex == USB_CDC_DIF_NUM1)) {
    instance = 1;
  }
>> *)
Definition instance_of_wIndex (windex : Z) : Z :=
  if (windex =? USB_CDC_CIF_NUM1) || (windex =? USB_CDC_DIF_NUM1)
  then 1 else 0.

(** USBD_CDC_Init.  [USBD_malloc] is what the allocator returns to this
    call: NULL, or a block whose contents the allocator chose. *)
Definition USBD_CDC_Init (USBD_malloc : option USBD_CDC_HandleTypeDef)
    (cfgidx : Z) : M Z :=
  d <- get_pdev ;;
  (if dev_speed d =? USBD_SPEED_HIGH then
     call (USBD_LL_OpenEP CDC_IN_EP USBD_EP_TYPE_BULK
             CDC_DATA_HS_IN_PACKET_SIZE) ;;
     call (USBD_LL_OpenEP CDC_OUT_EP USBD_EP_TYPE_BULK
             CDC_DATA_HS_OUT_PACKET_SIZE) ;;
     call (USBD_LL_OpenEP CDC2_IN_EP USBD_EP_TYPE_BULK
             CDC_DATA_HS_IN_PACKET_SIZE) ;;
     call (USBD_LL_OpenEP CDC2_OUT_EP USBD_EP_TYPE_BULK
             CDC_DATA_HS_OUT_PACKET_SIZE)
   else
     call (USBD_LL_OpenEP CDC_IN_EP USBD_EP_TYPE_BULK
             CDC_DATA_FS_IN_PACKET_SIZE) ;;
     call (USBD_LL_OpenEP CDC_OUT_EP USBD_EP_TYPE_BULK
             CDC_DATA_FS_OUT_PACKET_SIZE) ;;
     call (USBD_LL_OpenEP CDC2_IN_EP USBD_EP_TYPE_BULK
             CDC_DATA_FS_IN_PACKET_SIZE) ;;
     call (USBD_LL_OpenEP CDC2_OUT_EP USBD_EP_TYPE_BULK
             CDC_DATA_FS_OUT_PACKET_SIZE)) ;;
  call (USBD_LL_OpenEP CDC_CMD_EP USBD_EP_TYPE_INTR CDC_CMD_PACKET_SIZE) ;;
  call (USBD_LL_OpenEP CDC2_CMD_EP USBD_EP_TYPE_INTR CDC_CMD_PACKET_SIZE) ;;
  put_pdev (set_pClassData USBD_malloc d) ;;
  match USBD_malloc with
  | None => ret 1
  | Some _ =>
      for_each (seqZ 0 NUM_CDC_INSTANCES) (fun i =>
        hcdc <- hcdc_read ;;
        ts <- assign (TxState hcdc) i 0 ;;
        hcdc_write (set_TxState ts) ;;
        rs <- assign (RxState hcdc) i 0 ;;
        hcdc_write (set_RxState rs) ;;
        fops <- fops_read ;;
        ctx <- get_ctxPointers ;;
        old <- index ctx i ;;
        call (Itf_Init i) ;;
        ctx' <- assign ctx i (Init fops i old) ;;
        put_ctxPointers ctx') ;;
      hcdc <- hcdc_read ;;
      rx0 <- index (RxBuffer hcdc) 0 ;;
      rx1 <- index (RxBuffer hcdc) 1 ;;
      (if dev_speed d =? USBD_SPEED_HIGH then
         call (USBD_LL_PrepareReceive CDC_OUT_EP rx0
                 CDC_DATA_HS_OUT_PACKET_SIZE) ;;
         call (USBD_LL_PrepareReceive CDC2_OUT_EP rx1
                 CDC_DATA_HS_OUT_PACKET_SIZE)
       else
         call (USBD_LL_PrepareReceive CDC_OUT_EP rx0
                 CDC_DATA_FS_OUT_PACKET_SIZE) ;;
         call (USBD_LL_PrepareReceive CDC2_OUT_EP rx1
                 CDC_DATA_FS_OUT_PACKET_SIZE)) ;;
      ret 0
  end.

(** USBD_CDC_DeInit *)
Definition USBD_CDC_DeInit (cfgidx : Z) : M Z :=
  call (USBD_LL_CloseEP CDC_IN_EP) ;;
  call (USBD_LL_CloseEP CDC_OUT_EP) ;;
  call (USBD_LL_CloseEP CDC_CMD_EP) ;;
  call (USBD_LL_CloseEP CDC2_IN_EP) ;;
  call (USBD_LL_CloseEP CDC2_OUT_EP) ;;
  call (USBD_LL_CloseEP CDC2_CMD_EP) ;;
  d <- get_pdev ;;
  match pClassData d with
  | Some _ =>
      _ <- fops_read ;;
      ctx <- get_ctxPointers ;;
      c0 <- index ctx 0 ;;
      call (Itf_DeInit c0) ;;
      ctx <- get_ctxPointers ;;
      c1 <- index ctx 1 ;;
      call (Itf_DeInit c1) ;;
      call USBD_free ;;
      put_pdev (set_pClassData None d) ;;
      ret 0
  | None => ret 0
  end.

(** USBD_CDC_Setup *)
Definition USBD_CDC_Setup (req : USBD_SetupReqTypedef) : M Z :=
  let instance := instance_of_wIndex (wIndex req) in
  hcdc_write (set_ctrlInst instance) ;;
  let type := Z.land (bmRequest req) USB_REQ_TYPE_MASK in
  (if type =? USB_REQ_TYPE_CLASS then
     if truthy (wLength req) then
       if truthy (Z.land (bmRequest req) 0x80) then
         _ <- fops_read ;;
         ctx <- get_ctxPointers ;;
         c <- index ctx instance ;;
         call (Itf_Control c (bRequest req) hcdc_data (wLength req)) ;;
         call (USBD_CtlSendData hcdc_data (wLength req))
       else
         hcdc_write (set_CmdOpCode (bRequest req)) ;;
         hcdc_write (set_CmdLength (CmdLength_conv (wLength req))) ;;
         call (USBD_CtlPrepareRx hcdc_data (wLength req))
     else
       _ <- fops_read ;;
       ctx <- get_ctxPointers ;;
       c <- index ctx instance ;;
       call (Itf_Control c (bRequest req) req_bytes 0)
   else if type =? USB_REQ_TYPE_STANDARD then
     if bRequest req =? USB_REQ_GET_INTERFACE then
       call (USBD_CtlSendData ifalt_addr 1)
     else if bRequest req =? USB_REQ_SET_INTERFACE then
       ret tt
     else ret tt
   else ret tt) ;;
  ret USBD_OK.

(** USBD_CDC_DataIn *)
Definition USBD_CDC_DataIn (epnum : Z) : M Z :=
  let instance := instance_of_epnum epnum in
  d <- get_pdev ;;
  match pClassData d with
  | Some hcdc =>
      ts <- assign (TxState hcdc) instance 0 ;;
      hcdc_write (set_TxState ts) ;;
      _ <- fops_read ;;
      ctx <- get_ctxPointers ;;
      c <- index ctx instance ;;
      call (Itf_TxComplete c) ;;
      ret USBD_OK
  | None => ret USBD_FAIL
  end.

(** USBD_CDC_DataOut.  [USBD_LL_GetRxDataSize] is the link layer's answer
    for each endpoint number. *)
Definition USBD_CDC_DataOut (USBD_LL_GetRxDataSize : Z -> Z) (epnum : Z)
    : M Z :=
  let instance := instance_of_epnum epnum in
  hcdc <- hcdc_read ;;
  rl <- assign (RxLength hcdc) instance (USBD_LL_GetRxDataSize epnum) ;;
  hcdc_write (set_RxLength rl) ;;
  d <- get_pdev ;;
  match pClassData d with
  | Some hcdc =>
      fops <- fops_read ;;
      ctx <- get_ctxPointers ;;
      c <- index ctx instance ;;
      buf <- index (RxBuffer hcdc) instance ;;
      len <- index (RxLength hcdc) instance ;;
      call (Itf_Receive c buf len) ;;
      rl' <- assign (RxLength hcdc) instance (Receive fops c buf len) ;;
      hcdc_write (set_RxLength rl') ;;
      ret USBD_OK
  | None => ret USBD_FAIL
  end.

(** USBD_CDC_EP0_RxReady *)
Definition USBD_CDC_EP0_RxReady : M Z :=
  hcdc <- hcdc_read ;;
  let instance := ctrlInst hcdc in
  d <- get_pdev ;;
  if bool_decide (is_Some (pUserData d)) && negb (CmdOpCode hcdc =? 0xFF) then
    ctx <- get_ctxPointers ;;
    c <- index ctx instance ;;
    call (Itf_Control c (CmdOpCode hcdc) hcdc_data (CmdLength hcdc)) ;;
    hcdc_write (set_CmdOpCode 0xFF) ;;
    ret USBD_OK
  else ret USBD_OK.

(** USBD_CDC_RegisterInterface; [fops] is [None] for a NULL argument. *)
Definition USBD_CDC_RegisterInterface (fops : option USBD_CDC_ItfTypeDef)
    : M Z :=
  match fops with
  | Some _ =>
      d <- get_pdev ;;
      put_pdev (set_pUserData fops d) ;;
      ret USBD_OK
  | None => ret USBD_FAIL
  end.

(** USBD_CDC_SetTxBuffer *)
Definition USBD_CDC_SetTxBuffer (instance pbuff len : Z) : M Z :=
  hcdc <- hcdc_read ;;
  tb <- assign (TxBuffer hcdc) instance pbuff ;;
  hcdc_write (set_TxBuffer tb) ;;
  tl <- assign (TxLength hcdc) instance len ;;
  hcdc_write (set_TxLength tl) ;;
  ret USBD_OK.

(** USBD_CDC_SetRxBuffer *)
Definition USBD_CDC_SetRxBuffer (instance pbuff : Z) : M Z :=
  hcdc <- hcdc_read ;;
  rb <- assign (RxBuffer hcdc) instance pbuff ;;
  hcdc_write (set_RxBuffer rb) ;;
  ret USBD_OK.

(** USBD_CDC_TransmitPacket *)
Definition USBD_CDC_TransmitPacket (instance : Z) : M Z :=
  let ep := if truthy instance then CDC2_IN_EP else CDC_IN_EP in
  d <- get_pdev ;;
  match pClassData d with
  | Some hcdc =>
      st <- index (TxState hcdc) instance ;;
      if st =? 0 then
        ts <- assign (TxState hcdc) instance 1 ;;
        hcdc_write (set_TxState ts) ;;
        buf <- index (TxBuffer hcdc) instance ;;
        len <- index (TxLength hcdc) instance ;;
        call (USBD_LL_Transmit ep buf len) ;;
        ret USBD_OK
      else ret USBD_BUSY
  | None => ret USBD_FAIL
  end.

(** USBD_CDC_ReceivePacket *)
Definition USBD_CDC_ReceivePacket (instance : Z) : M Z :=
  let ep := if truthy instance then CDC2_OUT_EP else CDC_OUT_EP in
  d <- get_pdev ;;
  match pClassData d with
  | Some hcdc =>
      buf <- index (RxBuffer hcdc) instance ;;
      (if dev_speed d =? USBD_SPEED_HIGH then
         call (USBD_LL_PrepareReceive ep buf CDC_DATA_HS_OUT_PACKET_SIZE)
       else
         call (USBD_LL_PrepareReceive ep buf CDC_DATA_FS_OUT_PACKET_SIZE)) ;;
      ret USBD_OK
  | None => ret USBD_FAIL
  end.

(** *** The entry points as one step function *)

(** What the USB core and the application may ask of a configured
    driver. *)
Inductive dispatch : Type :=
  | Do_Setup (req : USBD_SetupReqTypedef)
  | Do_DataIn (epnum : Z)
  | Do_DataOut (USBD_LL_GetRxDataSize : Z -> Z) (epnum : Z)
  | Do_EP0_RxReady
  | Do_RegisterInterface (fops : option USBD_CDC_ItfTypeDef)
  | Do_SetTxBuffer (instance pbuff len : Z)
  | Do_SetRxBuffer (instance pbuff : Z)
  | Do_TransmitPacket (instance : Z)
  | Do_ReceivePacket (instance : Z).

Definition run_dispatch (op : dispatch) : M Z :=
  match op with
  | Do_Setup req => USBD_CDC_Setup req
  | Do_DataIn epnum => USBD_CDC_DataIn epnum
  | Do_DataOut rx epnum => USBD_CDC_DataOut rx epnum
  | Do_EP0_RxReady => USBD_CDC_EP0_RxReady
  | Do_RegisterInterface fops => USBD_CDC_RegisterInterface fops
  | Do_SetTxBuffer instance pbuff len => USBD_CDC_SetTxBuffer instance pbuff len
  | Do_SetRxBuffer instance pbuff => USBD_CDC_SetRxBuffer instance pbuff
  | Do_TransmitPacket instance => USBD_CDC_TransmitPacket instance
  | Do_ReceivePacket instance => USBD_CDC_ReceivePacket instance
  end.

(** The setup packets USBD_CDC_Setup stages: class, wLength non-zero,
    direction bit clear. *)
Definition stages_data (req : USBD_SetupReqTypedef) : bool :=
  (Z.land (bmRequest req) USB_REQ_TYPE_MASK =? USB_REQ_TYPE_CLASS)
  && truthy (wLength req)
  && negb (truthy (Z.land (bmRequest req) 0x80)).

(** Whether the driver is between a staging setup packet and the
    control-data-ready event that ends it. *)
Definition awaiting_data (op : dispatch) (before : bool) : bool :=
  match op with
  | Do_Setup req => stages_data req || before
  | Do_EP0_RxReady => false
  | _ => before
  end.

(** The invariant on the pending opcode: a callback table is registered, a
    class handle is allocated, and outside a staged transfer CmdOpCode is
    0xFF. *)
Definition opcode_invariant (awaiting : bool) (w : World) : Prop :=
  is_Some (pUserData (pdev w)) /\
  exists hcdc, pClassData (pdev w) = Some hcdc /\
               (awaiting = false -> CmdOpCode hcdc = 0xFF).

(** A sequence of requests, served one after the other. *)
Fixpoint run_all (ops : list dispatch) : M unit :=
  match ops with
  | [] => ret tt
  | op :: rest => run_dispatch op ;; run_all rest
  end.

Definition awaiting_after (ops : list dispatch) (before : bool) : bool :=
  fold_left (fun b op => awaiting_data op b) ops before.

End Driver.

(** ** A sample board *)

(** The values of ST's device library for usbd_def.h and usbd_cdc.h
    (status codes 0/1/2, request-type mask 0x60, 512-byte high-speed and
    64-byte full-speed packets, an 8-bit CmdLength), with the second
    instance on interfaces 2 and 3 and on the endpoints with bit 0x04
    set. *)
Definition sample_board : Constants := {|
  CDC_IN_EP := 0x81;
  CDC_OUT_EP := 0x01;
  CDC_CMD_EP := 0x82;
  CDC2_IN_EP := 0x85;
  CDC2_OUT_EP := 0x05;
  CDC2_CMD_EP := 0x86;
  CDC2_EP_MASK := 0x04;
  USB_CDC_CIF_NUM1 := 2;
  USB_CDC_DIF_NUM1 := 3;
  CDC_DATA_HS_IN_PACKET_SIZE := 512;
  CDC_DATA_HS_OUT_PACKET_SIZE := 512;
  CDC_DATA_FS_IN_PACKET_SIZE := 64;
  CDC_DATA_FS_OUT_PACKET_SIZE := 64;
  CDC_CMD_PACKET_SIZE := 8;
  USBD_EP_TYPE_BULK := 2;
  USBD_EP_TYPE_INTR := 3;
  USBD_SPEED_HIGH := 0;
  USB_REQ_TYPE_MASK := 0x60;
  USB_REQ_TYPE_CLASS := 0x20;
  USB_REQ_TYPE_STANDARD := 0x00;
  USB_REQ_GET_INTERFACE := 0x0A;
  USB_REQ_SET_INTERFACE := 0x0B;
  USBD_OK := 0;
  USBD_BUSY := 1;
  USBD_FAIL := 2;
  CmdLength_conv := fun z => z mod 256
|}.

(** An application whose Init stores [100 + i] as the context of instance
    [i] and whose Receive leaves the length as it found it. *)
Definition sample_fops : USBD_CDC_ItfTypeDef :=
  {| Init := fun i _ => 100 + i; Receive := fun _ _ len => len |}.

(** A class handle as the allocator may return it: zeroed memory. *)
Definition zeroed_block : USBD_CDC_HandleTypeDef :=
  {| CmdOpCode := 0; CmdLength := 0; RxBuffer := [0; 0]; TxBuffer := [0; 0];
     RxLength := [0; 0]; TxLength := [0; 0]; TxState := [0; 0];
     RxState := [0; 0]; ctrlInst := 0 |}.

(** A configured class handle: no control transfer pending, instance 1
    transmitting, application buffers set. *)
Definition sample_hcdc : USBD_CDC_HandleTypeDef :=
  {| CmdOpCode := 0xFF; CmdLength := 0; RxBuffer := [0x2000; 0x2040];
     TxBuffer := [0x3000; 0x3040]; RxLength := [0; 0]; TxLength := [5; 9];
     TxState := [0; 1]; RxState := [0; 0]; ctrlInst := 0 |}.

(** A full-speed device before configuration (callbacks registered, no
    class handle), and after it. *)
Definition sample_unconfigured : World :=
  {| pdev := {| dev_speed := 1; pClassData := None;
                pUserData := Some sample_fops |};
     ctxPointers := [0; 0]; trace := [] |}.

Definition sample_world : World :=
  {| pdev := {| dev_speed := 1; pClassData := Some sample_hcdc;
                pUserData := Some sample_fops |};
     ctxPointers := [100; 101]; trace := [] |}.


(** A class request with an 8-byte data stage from the host (SET_LINE_CODING
    shaped) for instance 0; a class request for 7 bytes to the host
    (request 0x21) on interface 1, the data interface of instance 0; and a
    standard SET_INTERFACE and GET_INTERFACE on interface 2, the control
    interface of instance 1. *)
Definition sample_out_req : USBD_SetupReqTypedef :=
  {| bmRequest := 0x21; bRequest := 0x20; wValue := 0; wIndex := 0;
     wLength := 8 |}.

Definition sample_in_req : USBD_SetupReqTypedef :=
  {| bmRequest := 0xA1; bRequest := 0x21; wValue := 0; wIndex := 1;
     wLength := 7 |}.

Definition sample_set_interface : USBD_SetupReqTypedef :=
  {| bmRequest := 0x01; bRequest := 0x0B; wValue := 0; wIndex := 2;
     wLength := 0 |}.

Definition sample_get_interface : USBD_SetupReqTypedef :=
  {| bmRequest := 0x81; bRequest := 0x0A; wValue := 0; wIndex := 2;
     wLength := 1 |}.

(** A device with a class handle holding a staged opcode and no callback
    table. *)
Definition sample_unregistered : World :=
  {| pdev := {| dev_speed := 1;
                pClassData := Some (set_CmdLength 8 (set_CmdOpCode 0x20 sample_hcdc));
                pUserData := None |};
     ctxPointers := [100; 101]; trace := [] |}.

(** ** Vocabulary of the statements *)

(** Every defined run of [m] takes a world to one related to it by [R]. *)
Definition preserves {A} (R : relation World) (m : M A) : Prop :=
  forall w a w', m w = Some (a, w') -> R w w'.

(** The trace grew by calls that all satisfy [P]. *)
Definition emits (P : event -> Prop) : relation World :=
  fun w w' => exists evs, trace w' = trace w ++ evs /\ Forall P evs.

Definition emits_only {A} (P : event -> Prop) (m : M A) : Prop :=
  preserves (emits P) m.

(** A registered callback table stays registered and an allocated class
    handle stays allocated. *)
Definition keeps_handles : relation World :=
  fun w w' =>
    (is_Some (pUserData (pdev w)) -> is_Some (pUserData (pdev w'))) /\
    (is_Some (pClassData (pdev w)) -> is_Some (pClassData (pdev w'))).

(** Moreover the class handle keeps its CmdOpCode. *)
Definition keeps_opcode : relation World :=
  fun w w' =>
    (is_Some (pUserData (pdev w)) -> is_Some (pUserData (pdev w'))) /\
    (forall h, pClassData (pdev w) = Some h ->
       exists h', pClassData (pdev w') = Some h' /\
                  CmdOpCode h' = CmdOpCode h).

(** The calls that arm a bulk-OUT endpoint. *)
Definition is_PrepareReceive (e : event) : bool :=
  match e with
  | USBD_LL_PrepareReceive _ _ _ => true
  | _ => false
  end.

Definition not_PrepareReceive (e : event) : Prop := is_PrepareReceive e = false.

Section Vocabulary.

Context `{Constants}.

(** The bulk-OUT packet size of a device speed. *)
Definition out_packet_size (speed : Z) : Z :=
  if decide (speed = USBD_SPEED_HIGH)
  then CDC_DATA_HS_OUT_PACKET_SIZE else CDC_DATA_FS_OUT_PACKET_SIZE.

Definition in_packet_size (speed : Z) : Z :=
  if decide (speed = USBD_SPEED_HIGH)
  then CDC_DATA_HS_IN_PACKET_SIZE else CDC_DATA_FS_IN_PACKET_SIZE.

(** The six endpoints in the order USBD_CDC_Init opens them. *)
Definition six_endpoints_opened (speed : Z) : list event :=
  [ USBD_LL_OpenEP CDC_IN_EP USBD_EP_TYPE_BULK (in_packet_size speed);
    USBD_LL_OpenEP CDC_OUT_EP USBD_EP_TYPE_BULK (out_packet_size speed);
    USBD_LL_OpenEP CDC2_IN_EP USBD_EP_TYPE_BULK (in_packet_size speed);
    USBD_LL_OpenEP CDC2_OUT_EP USBD_EP_TYPE_BULK (out_packet_size speed);
    USBD_LL_OpenEP CDC_CMD_EP USBD_EP_TYPE_INTR CDC_CMD_PACKET_SIZE;
    USBD_LL_OpenEP CDC2_CMD_EP USBD_EP_TYPE_INTR CDC_CMD_PACKET_SIZE ].

(** The class handle USBD_CDC_Init leaves when the allocator returned
    [blk]: both transfer states cleared, every other field as allocated. *)
Definition initialised (blk : USBD_CDC_HandleTypeDef) : USBD_CDC_HandleTypeDef :=
  set_RxState [0; 0] (set_TxState [0; 0] blk).

End Vocabulary.

(** ** The descriptor accessors *)

(** What the accessors need from the absent headers: the two macros of
    usbd_def.h used by the device qualifier table, and the configuration
    descriptor table IADCDCTwoDescriptor of cdc_descriptor.h, as bytes. *)
Class DescriptorConstants : Type := {
  USB_LEN_DEV_QUALIFIER_DESC : Z;
  USB_DESC_TYPE_DEVICE_QUALIFIER : Z;
  IADCDCTwoDescriptor : list Z
}.

Section Descriptors.

Context `{DescriptorConstants}.

(** [static uint8_t USBD_CDC_DeviceQualifierDesc[USB_LEN_DEV_QUALIFIER_DESC]]
    with its ten initialisers, each stored as a byte; the entries of the
    array past the initialisers are zero.  The declaration compiles only
    when the declared size is at least ten. *)
Definition USBD_CDC_DeviceQualifierDesc : list Z :=
  [ USB_LEN_DEV_QUALIFIER_DESC mod 256;
    USB_DESC_TYPE_DEVICE_QUALIFIER mod 256;
    0x00; 0x02; 0x00; 0x00; 0x00; 0x40; 0x01; 0x00 ]
  ++ replicate (Z.to_nat (USB_LEN_DEV_QUALIFIER_DESC - 10)) 0.

(** [sizeof] of an array of bytes, stored through [uint16_t *length]. *)
Definition sizeof_u16 (table : list Z) : Z :=
  Z.of_nat (length table) mod 65536.

(** The accessors return the table, [None] for NULL, and the value stored
    in [*length]. *)
Definition USBD_CDC_GetFSCfgDesc : option (list Z) * Z :=
  (Some IADCDCTwoDescriptor, sizeof_u16 IADCDCTwoDescriptor).

Definition USBD_CDC_GetHSCfgDesc : option (list Z) * Z :=
  (None, 0).

Definition USBD_CDC_GetOtherSpeedCfgDesc : option (list Z) * Z :=
  (Some IADCDCTwoDescriptor, sizeof_u16 IADCDCTwoDescriptor).

Definition USBD_CDC_GetDeviceQualifierDescriptor : option (list Z) * Z :=
  (Some USBD_CDC_DeviceQualifierDesc, sizeof_u16 USBD_CDC_DeviceQualifierDesc).

(** The number of bytes a caller may read behind the pointer returned. *)
Definition readable (table : option (list Z)) : Z :=
  match table with
  | Some bytes => Z.of_nat (length bytes)
  | None => 0
  end.

End Descriptors.

(** The values of ST's usbd_def.h, and a short configuration table. *)
Definition sample_descriptors : DescriptorConstants :=
  {| USB_LEN_DEV_QUALIFIER_DESC := 0x0A;
     USB_DESC_TYPE_DEVICE_QUALIFIER := 0x06;
     IADCDCTwoDescriptor := [0x09; 0x02; 0x8D; 0x00] |}.

(** Further sample requests: a class request without data stage
    (SET_CONTROL_LINE_STATE shaped) for instance 0, a staging request for
    instance 1, and a staging request whose code is 0xFF. *)
Definition sample_no_data_req : USBD_SetupReqTypedef :=
  {| bmRequest := 0x21; bRequest := 0x22; wValue := 3; wIndex := 0;
     wLength := 0 |}.

Definition sample_out_req_1 : USBD_SetupReqTypedef :=
  {| bmRequest := 0x21; bRequest := 0x20; wValue := 0; wIndex := 2;
     wLength := 7 |}.

Definition sample_ff_req : USBD_SetupReqTypedef :=
  {| bmRequest := 0x21; bRequest := 0xFF; wValue := 0; wIndex := 0;
     wLength := 4 |}.

(** A block as an allocator may return it that happens to hold 0xFF in
    CmdOpCode. *)
Definition sample_ff_block : USBD_CDC_HandleTypeDef :=
  set_CmdOpCode 0xFF zeroed_block.

(* A run of the driver after configuration: a transfer is queued, a class
   request with a data stage arrives and is completed, the transfer
   finishes, the host selects an alternate setting, reception is re-armed. *)
Definition sample_requests : list dispatch :=
  [Do_SetTxBuffer 0 0x3000 5; Do_Setup sample_out_req;
   Do_TransmitPacket 0; Do_EP0_RxReady; Do_DataIn 0x81;
   Do_Setup sample_set_interface; Do_ReceivePacket 1].

(** ** Vocabulary of the further statements *)

(** Every defined run of [m] returns a value that satisfies [Q]. *)
Definition returns {A} (Q : A -> Prop) (m : M A) : Prop :=
  forall w a w', m w = Some (a, w') -> Q a.

(** The world [w] once the class handle is [hcdc] and the calls [evs]
    have been made; and [w] once the calls [evs] have been made. *)
Definition after (w : World) (hcdc : USBD_CDC_HandleTypeDef)
    (evs : list event) : World :=
  {| pdev := set_pClassData (Some hcdc) (pdev w);
     ctxPointers := ctxPointers w;
     trace := trace w ++ evs |}.

Definition called (w : World) (evs : list event) : World :=
  {| pdev := pdev w; ctxPointers := ctxPointers w; trace := trace w ++ evs |}.

(** The world once the class handle has been released. *)
Definition released (w : World) (evs : list event) : World :=
  {| pdev := set_pClassData None (pdev w);
     ctxPointers := ctxPointers w;
     trace := trace w ++ evs |}.

(** An allocated class handle stays allocated and keeps its TxState. *)
Definition keeps_TxState : relation World :=
  fun w w' =>
    forall h, pClassData (pdev w) = Some h ->
      exists h', pClassData (pdev w') = Some h' /\ TxState h' = TxState h.

(** The per-instance arrays of a class handle have NUM_CDC_INSTANCES
    entries. *)
Definition two_instances (h : USBD_CDC_HandleTypeDef) : Prop :=
  length (RxBuffer h) = 2%nat /\ length (TxBuffer h) = 2%nat /\
  length (RxLength h) = 2%nat /\ length (TxLength h) = 2%nat /\
  length (TxState h) = 2%nat /\ length (RxState h) = 2%nat.

(** The calls that submit a transmission, and the calls that give
    resources back. *)
Definition is_Transmit (e : event) : bool :=
  match e with
  | USBD_LL_Transmit _ _ _ => true
  | _ => false
  end.

Definition not_Transmit (e : event) : Prop := is_Transmit e = false.

Definition is_release (e : event) : bool :=
  match e with
  | USBD_LL_CloseEP _ | USBD_free | Itf_DeInit _ => true
  | _ => false
  end.

Definition not_release (e : event) : Prop := is_release e = false.

(** The requests that store to TxState. *)
Definition touches_TxState (op : dispatch) : bool :=
  match op with
  | Do_DataIn _ | Do_TransmitPacket _ => true
  | _ => false
  end.

Section FurtherVocabulary.

Context `{Constants}.

(** The bulk endpoints of an instance, as USBD_CDC_TransmitPacket and
    USBD_CDC_ReceivePacket choose them. *)
Definition bulk_in_ep (instance : Z) : Z :=
  if truthy instance then CDC2_IN_EP else CDC_IN_EP.

Definition bulk_out_ep (instance : Z) : Z :=
  if truthy instance then CDC2_OUT_EP else CDC_OUT_EP.

(** The addressing convention of cdc_descriptor.h the handlers rely on:
    the bulk endpoints of instance 1, and only those, carry a bit of
    CDC2_EP_MASK. *)
Definition endpoints_routed : Prop :=
  instance_of_epnum CDC_IN_EP = 0 /\ instance_of_epnum CDC_OUT_EP = 0 /\
  instance_of_epnum CDC2_IN_EP = 1 /\ instance_of_epnum CDC2_OUT_EP = 1.

(** The six endpoints in the order USBD_CDC_DeInit closes them. *)
Definition six_endpoints_closed : list event :=
  [ USBD_LL_CloseEP CDC_IN_EP; USBD_LL_CloseEP CDC_OUT_EP;
    USBD_LL_CloseEP CDC_CMD_EP; USBD_LL_CloseEP CDC2_IN_EP;
    USBD_LL_CloseEP CDC2_OUT_EP; USBD_LL_CloseEP CDC2_CMD_EP ].

(** The setup packets that are neither class requests nor a standard
    GET_INTERFACE: USBD_CDC_Setup only records their instance. *)
Definition only_recorded (req : USBD_SetupReqTypedef) : Prop :=
  let type := Z.land (bmRequest req) USB_REQ_TYPE_MASK in
  type <> USB_REQ_TYPE_CLASS /\
  ~ (type = USB_REQ_TYPE_STANDARD /\ bRequest req = USB_REQ_GET_INTERFACE).

End FurtherVocabulary.

(** ** Running driver code *)

Lemma index_lookup {A} (a : list A) (i : Z) (v : A) (w : World) :
  0 <= i -> a !! Z.to_nat i = Some v -> index a i w = Some (v, w).
Proof.
  intros Hi Hv. unfold index.
  destruct (Z.leb_spec 0 i) as [_ | Hneg]; [| lia].
  rewrite Hv. reflexivity.
Qed.

Lemma assign_in_range {A} (a : list A) (i : Z) (v : A) (w : World) :
  0 <= i < Z.of_nat (length a) ->
  assign a i v w = Some (<[Z.to_nat i := v]> a, w).
Proof.
  intros [Hlo Hhi]. unfold assign.
  destruct (Z.leb_spec 0 i) as [_ | Hneg]; [| lia].
  destruct (Z.ltb_spec i (Z.of_nat (length a))) as [_ | Hge]; [| lia].
  reflexivity.
Qed.

(** Arrays of two entries, as every per-instance array of the driver. *)
Lemma index_two {A} (x y : A) :
  index [x; y] 0 = ret x /\ index [x; y] 1 = ret y.
Proof. split; reflexivity. Qed.

Lemma assign_two {A} (x y v : A) :
  assign [x; y] 0 v = ret [v; y] /\ assign [x; y] 1 v = ret [x; v].
Proof. split; reflexivity. Qed.

Lemma lookup_in_range {A} (a : list A) (i : Z) (v : A) :
  0 <= i -> a !! Z.to_nat i = Some v -> 0 <= i < Z.of_nat (length a).
Proof.
  intros Hi Hv. apply lookup_lt_Some in Hv. lia.
Qed.

Lemma land_pow2_testbit (x k : Z) :
  0 <= k -> Z.land x (2 ^ k) = if Z.testbit x k then 2 ^ k else 0.
Proof.
  intros Hk. apply Z.bits_inj'. intros n Hn.
  rewrite Z.land_spec, (Z.pow2_bits_eqb k n Hk).
  destruct (Z.eqb_spec k n) as [-> | Hne].
  - destruct (Z.testbit x n) eqn:Hx.
    + rewrite (Z.pow2_bits_eqb n n Hn), Z.eqb_refl. reflexivity.
    + rewrite Z.bits_0. reflexivity.
  - rewrite andb_false_r. destruct (Z.testbit x k).
    + rewrite (Z.pow2_bits_eqb k n Hk).
      destruct (Z.eqb_spec k n); [contradiction | reflexivity].
    + rewrite Z.bits_0. reflexivity.
Qed.

(** Unfolds the primitives of the monad; what is left is a [match] on the
    fields of the world. *)
Tactic Notation "run" :=
  cbv beta iota delta
    [bind ret get_pdev put_pdev get_ctxPointers put_ctxPointers
     call hcdc_read hcdc_write fops_read defined undefined];
  cbn [negb andb orb pdev ctxPointers trace pClassData pUserData dev_speed
       set_pClassData set_pUserData].

Tactic Notation "run" "in" hyp(H) :=
  cbv beta iota delta
    [bind ret get_pdev put_pdev get_ctxPointers put_ctxPointers
     call hcdc_read hcdc_write fops_read defined undefined] in H;
  cbn [negb andb orb pdev ctxPointers trace pClassData pUserData dev_speed
       set_pClassData set_pUserData] in H.

(** ** Frame rules *)

Section Frame.

Context (R : relation World) `{!Reflexive R} `{!Transitive R}.

Lemma preserves_ret {A} (a : A) : preserves R (ret a).
Proof. intros w a' w' Hrun. injection Hrun as <- <-. reflexivity. Qed.

Lemma preserves_undefined {A} : preserves R (@undefined A).
Proof. intros w a w' Hrun. discriminate Hrun. Qed.

Lemma preserves_bind {A B} (m : M A) (k : A -> M B) :
  preserves R m -> (forall a, preserves R (k a)) -> preserves R (bind m k).
Proof.
  intros Hm Hk w b w2 Hrun. unfold bind in Hrun.
  destruct (m w) as [[a w1] |] eqn:Em; [| discriminate].
  transitivity w1; [exact (Hm _ _ _ Em) | exact (Hk a _ _ _ Hrun)].
Qed.

Lemma preserves_defined {A} (o : option A) : preserves R (defined o).
Proof. destruct o; [apply preserves_ret | apply preserves_undefined]. Qed.

Lemma preserves_get_pdev : preserves R get_pdev.
Proof. intros w a w' Hrun. injection Hrun as <- <-. reflexivity. Qed.

Lemma preserves_get_ctxPointers : preserves R get_ctxPointers.
Proof. intros w a w' Hrun. injection Hrun as <- <-. reflexivity. Qed.

Lemma preserves_index {A} (a : list A) (i : Z) : preserves R (index a i).
Proof.
  unfold index. destruct (0 <=? i);
    [apply preserves_defined | apply preserves_undefined].
Qed.

Lemma preserves_assign {A} (a : list A) (i : Z) (v : A) :
  preserves R (assign a i v).
Proof.
  unfold assign.
  destruct (_ && _); [apply preserves_ret | apply preserves_undefined].
Qed.

Lemma preserves_hcdc_read : preserves R hcdc_read.
Proof.
  apply preserves_bind; [apply preserves_get_pdev | intros d].
  apply preserves_defined.
Qed.

Lemma preserves_fops_read : preserves R fops_read.
Proof.
  apply preserves_bind; [apply preserves_get_pdev | intros d].
  apply preserves_defined.
Qed.

(** The steps that change the world leave an obligation on [R]. *)
Lemma preserves_call (e : event) :
  (forall w, R w {| pdev := pdev w; ctxPointers := ctxPointers w;
                    trace := trace w ++ [e] |}) ->
  preserves R (call e).
Proof. intros Hstep w a w' Hrun. injection Hrun as <- <-. apply Hstep. Qed.

Lemma preserves_put_pdev (d : USBD_HandleTypeDef) :
  (forall w, R w {| pdev := d; ctxPointers := ctxPointers w;
                    trace := trace w |}) ->
  preserves R (put_pdev d).
Proof. intros Hstep w a w' Hrun. injection Hrun as <- <-. apply Hstep. Qed.

Lemma preserves_put_ctxPointers (c : list Z) :
  (forall w, R w {| pdev := pdev w; ctxPointers := c; trace := trace w |}) ->
  preserves R (put_ctxPointers c).
Proof. intros Hstep w a w' Hrun. injection Hrun as <- <-. apply Hstep. Qed.

Lemma preserves_hcdc_write
    (f : USBD_CDC_HandleTypeDef -> USBD_CDC_HandleTypeDef) :
  (forall w h, pClassData (pdev w) = Some h ->
     R w {| pdev := set_pClassData (Some (f h)) (pdev w);
            ctxPointers := ctxPointers w; trace := trace w |}) ->
  preserves R (hcdc_write f).
Proof.
  intros Hstep w a w' Hrun. unfold hcdc_write in Hrun. run in Hrun.
  destruct (pClassData (pdev w)) as [h |] eqn:Eh; [| discriminate].
  injection Hrun as <- <-. apply Hstep. exact Eh.
Qed.

End Frame.

#[global] Instance emits_reflexive (P : event -> Prop) : Reflexive (emits P).
Proof.
  intros w. exists []. split; [symmetry; apply app_nil_r | constructor].
Qed.

#[global] Instance emits_transitive (P : event -> Prop) : Transitive (emits P).
Proof.
  intros w1 w2 w3 (evs1 & E1 & F1) (evs2 & E2 & F2).
  exists (evs1 ++ evs2). split.
  - rewrite E2, E1. symmetry. apply app_assoc.
  - apply Forall_app. split; assumption.
Qed.

#[global] Instance keeps_handles_reflexive : Reflexive keeps_handles.
Proof. intros w. split; trivial. Qed.

#[global] Instance keeps_handles_transitive : Transitive keeps_handles.
Proof. intros w1 w2 w3 [U1 C1] [U2 C2]. split; auto. Qed.

#[global] Instance keeps_opcode_reflexive : Reflexive keeps_opcode.
Proof. intros w. split; [trivial | intros h Hh; exists h; auto]. Qed.

#[global] Instance keeps_opcode_transitive : Transitive keeps_opcode.
Proof.
  intros w1 w2 w3 [U1 C1] [U2 C2]. split; [auto |].
  intros h Hh. destruct (C1 h Hh) as (h2 & Hh2 & E2).
  destruct (C2 h2 Hh2) as (h3 & Hh3 & E3).
  exists h3. split; [exact Hh3 | congruence].
Qed.

(** Decomposes a handler into its primitive steps.  The goals left are the
    obligations of the steps that change the world, with the branch
    conditions met on the way in the context. *)
Ltac frame_classes :=
  try match goal with
      | |- Reflexive _ => typeclasses eauto
      | |- Transitive _ => typeclasses eauto
      end.

Ltac frame :=
  unfold emits_only;
  repeat first
    [ apply preserves_hcdc_write
    | apply preserves_hcdc_read; frame_classes
    | apply preserves_fops_read; frame_classes
    | apply preserves_bind; frame_classes; [| intros ?]
    | apply preserves_ret; frame_classes
    | apply preserves_undefined
    | apply preserves_defined; frame_classes
    | apply preserves_get_pdev; frame_classes
    | apply preserves_get_ctxPointers; frame_classes
    | apply preserves_index; frame_classes
    | apply preserves_assign; frame_classes
    | apply preserves_call | apply preserves_put_ctxPointers
    | apply preserves_put_pdev
    | match goal with
      | |- preserves _ (match ?x with _ => _ end) => destruct x eqn:?
      end ].

(** The obligations of [emits P]: a call that satisfies [P], or a step
    that leaves the trace alone. *)
Ltac emits_step :=
  intros;
  first [ exists []; split; [symmetry; apply app_nil_r | constructor]
        | eexists [_]; split; [reflexivity | repeat constructor; reflexivity] ].

(** The obligations of [keeps_handles] and [keeps_opcode]: a step that
    leaves the device handle alone, or a store to a field of the class
    handle other than CmdOpCode. *)
Ltac keeps_step :=
  intros;
  match goal with
  | |- keeps_handles _ _ =>
      split; cbn [pdev pUserData pClassData set_pClassData];
      [trivial | first [trivial | intros _; eexists; reflexivity]]
  | |- keeps_opcode _ _ =>
      split; cbn [pdev pUserData pClassData set_pClassData];
      [trivial
      | let h := fresh "h" in
        let Hh := fresh "Hh" in
        intros h Hh;
        first [ exists h; split; [exact Hh | reflexivity]
              | eexists; split; [reflexivity |];
                match goal with
                | E : pClassData _ = Some _ |- _ =>
                    rewrite E in Hh; injection Hh as <-; reflexivity
                end ] ]
  end.

Section Proofs.

Context `{Constants}.

(** USBD_CDC_Init when the allocator returns a block: the world it leaves. *)
Lemma Init_allocated
    (w : World) (blk : USBD_CDC_HandleTypeDef) (fops : USBD_CDC_ItfTypeDef)
    (cfgidx c0 c1 t0 t1 r0 r1 rx0 rx1 : Z) :
  pUserData (pdev w) = Some fops ->
  ctxPointers w = [c0; c1] ->
  TxState blk = [t0; t1] ->
  RxState blk = [r0; r1] ->
  RxBuffer blk !! 0%nat = Some rx0 ->
  RxBuffer blk !! 1%nat = Some rx1 ->
  USBD_CDC_Init (Some blk) cfgidx w =
  Some (0,
        {| pdev := set_pClassData (Some (initialised blk)) (pdev w);
           ctxPointers := [Init fops 0 c0; Init fops 1 c1];
           trace := trace w ++ six_endpoints_opened (dev_speed (pdev w)) ++
                    [Itf_Init 0; Itf_Init 1;
                     USBD_LL_PrepareReceive CDC_OUT_EP rx0
                       (out_packet_size (dev_speed (pdev w)));
                     USBD_LL_PrepareReceive CDC2_OUT_EP rx1
                       (out_packet_size (dev_speed (pdev w)))] |}).
Proof.
  intros Hud Hctx Hts Hrs Hrx0 Hrx1.
  destruct w as [[speed cd ud] ctx tr]. destruct blk as [op cl rb tb rl tl ts rs ci].
  cbn [pdev pUserData ctxPointers TxState RxState RxBuffer dev_speed trace] in *.
  subst ud ctx ts rs.
  unfold USBD_CDC_Init, six_endpoints_opened, in_packet_size, out_packet_size,
    initialised.
  change (seqZ 0 NUM_CDC_INSTANCES) with [0; 1].
  cbn [for_each]. run.
  destruct (Z.eqb_spec speed USBD_SPEED_HIGH) as [Hs | Hs];
    destruct (decide (speed = USBD_SPEED_HIGH)); try contradiction;
    run; cbn [TxState RxState RxBuffer set_TxState set_RxState];
    repeat (rewrite ?(proj1 (assign_two _ _ _)), ?(proj2 (assign_two _ _ _)),
              ?(proj1 (index_two _ _)), ?(proj2 (index_two _ _));
            run; cbn [TxState RxState RxBuffer set_TxState set_RxState]);
    rewrite (index_lookup _ 0 _ _ ltac:(reflexivity) Hrx0); run;
    rewrite (index_lookup _ 1 _ _ ltac:(discriminate) Hrx1); run;
    repeat rewrite <- app_assoc; reflexivity.
Qed.


(** C2.  The two classifications are total functions with values 0 and 1.
    An endpoint number belongs to instance 1 exactly when it has a bit of
    CDC2_EP_MASK set, and to instance 0 otherwise; when the mask is the
    single bit k this is bit k of the endpoint number.  A control request
    belongs to instance 1 exactly when its wIndex is USB_CDC_CIF_NUM1 or
    USB_CDC_DIF_NUM1, and to instance 0 otherwise. *)
Theorem instance_classification (epnum windex : Z) :
  (instance_of_epnum epnum = 1 <-> Z.land epnum CDC2_EP_MASK <> 0) /\
  (instance_of_epnum epnum = 0 <-> Z.land epnum CDC2_EP_MASK = 0) /\
  (forall k : Z, 0 <= k -> CDC2_EP_MASK = 2 ^ k ->
     instance_of_epnum epnum = if Z.testbit epnum k then 1 else 0) /\
  (instance_of_wIndex windex = 1 <->
     windex = USB_CDC_CIF_NUM1 \/ windex = USB_CDC_DIF_NUM1) /\
  (instance_of_wIndex windex = 0 <->
     windex <> USB_CDC_CIF_NUM1 /\ windex <> USB_CDC_DIF_NUM1).
Proof.
  unfold instance_of_epnum, instance_of_wIndex, truthy.
  assert (0 <> 1) as H01 by lia.
  split; [| split; [| split; [| split]]].
  - destruct (Z.eqb_spec (Z.land epnum CDC2_EP_MASK) 0) as [E | E];
      cbn [negb]; split; congruence.
  - destruct (Z.eqb_spec (Z.land epnum CDC2_EP_MASK) 0) as [E | E];
      cbn [negb]; split; congruence.
  - intros k Hk ->. rewrite (land_pow2_testbit epnum k Hk).
    assert (0 < 2 ^ k) by (apply Z.pow_pos_nonneg; lia).
    destruct (Z.testbit epnum k).
    + destruct (Z.eqb_spec (2 ^ k) 0); [lia | reflexivity].
    + reflexivity.
  - destruct (Z.eqb_spec windex USB_CDC_CIF_NUM1),
      (Z.eqb_spec windex USB_CDC_DIF_NUM1); cbn [orb]; split;
      intuition congruence.
  - destruct (Z.eqb_spec windex USB_CDC_CIF_NUM1),
      (Z.eqb_spec windex USB_CDC_DIF_NUM1); cbn [orb]; split;
      intuition congruence.
Qed.

(** C9.  USBD_CDC_RegisterInterface with a NULL table returns USBD_FAIL and
    changes nothing; with a table it returns USBD_OK and the only change is
    that pUserData points to that table. *)
Theorem RegisterInterface_null_or_set (w : World) (fops : USBD_CDC_ItfTypeDef) :
  USBD_CDC_RegisterInterface None w = Some (USBD_FAIL, w) /\
  USBD_CDC_RegisterInterface (Some fops) w =
  Some (USBD_OK,
        {| pdev := {| dev_speed := dev_speed (pdev w);
                      pClassData := pClassData (pdev w);
                      pUserData := Some fops |};
           ctxPointers := ctxPointers w;
           trace := trace w |}).
Proof.
  split; reflexivity.
Qed.

(** C3.  A class request with wLength > 0 and the direction bit 0x80 clear
    (host to device).  USBD_CDC_Setup returns USBD_OK, stores bRequest in
    CmdOpCode and the converted wLength in CmdLength, and its only call is
    USBD_CtlPrepareRx on the staging buffer: no callback.  When a callback
    table is registered and the stored opcode is not 0xFF, the next
    USBD_CDC_EP0_RxReady makes exactly one call, Control with the context
    of the recorded instance, the stored opcode, the staging buffer and the
    stored length, and stores 0xFF in CmdOpCode; a further
    USBD_CDC_EP0_RxReady changes nothing and calls nothing. *)
Theorem class_out_setup_delivered_once
    (w : World) (hcdc : USBD_CDC_HandleTypeDef) (req : USBD_SetupReqTypedef)
    (fops : USBD_CDC_ItfTypeDef) (c : Z) :
  pClassData (pdev w) = Some hcdc ->
  Z.land (bmRequest req) USB_REQ_TYPE_MASK = USB_REQ_TYPE_CLASS ->
  0 < wLength req ->
  Z.land (bmRequest req) 0x80 = 0 ->
  let instance := instance_of_wIndex (wIndex req) in
  let staged :=
    set_CmdLength (CmdLength_conv (wLength req))
      (set_CmdOpCode (bRequest req) (set_ctrlInst instance hcdc)) in
  let w1 :=
    {| pdev := set_pClassData (Some staged) (pdev w);
       ctxPointers := ctxPointers w;
       trace := trace w ++ [USBD_CtlPrepareRx hcdc_data (wLength req)] |} in
  let w2 :=
    {| pdev := set_pClassData (Some (set_CmdOpCode 0xFF staged)) (pdev w);
       ctxPointers := ctxPointers w;
       trace := trace w1 ++
                [Itf_Control c (bRequest req) hcdc_data
                   (CmdLength_conv (wLength req))] |} in
  USBD_CDC_Setup req w = Some (USBD_OK, w1) /\
  (pUserData (pdev w) = Some fops ->
   bRequest req <> 0xFF ->
   ctxPointers w !! Z.to_nat instance = Some c ->
   USBD_CDC_EP0_RxReady w1 = Some (USBD_OK, w2) /\
   USBD_CDC_EP0_RxReady w2 = Some (USBD_OK, w2)).
Proof.
  intros Hcd Htype Hlen Hdir instance staged w1 w2.
  split.
  - unfold USBD_CDC_Setup. run. rewrite Hcd, Htype, Z.eqb_refl, Hdir.
    unfold truthy. destruct (Z.eqb_spec (wLength req) 0); [lia |].
    reflexivity.
  - intros Hud Hop Hctx.
    assert (0 <= instance) as Hpos
      by (unfold instance, instance_of_wIndex;
          destruct (_ || _); lia).
    split.
    + unfold USBD_CDC_EP0_RxReady, w1. run. rewrite Hud.
      cbn [CmdOpCode staged set_CmdLength set_CmdOpCode ctrlInst set_ctrlInst].
      destruct (Z.eqb_spec (bRequest req) 0xFF); [contradiction |].
      cbn [bool_decide negb andb]. 
      rewrite bool_decide_eq_true_2 by (eexists; reflexivity).
      cbn [andb]. rewrite (index_lookup _ _ _ _ Hpos Hctx). reflexivity.
    + unfold USBD_CDC_EP0_RxReady, w2. run.
      cbn [CmdOpCode set_CmdOpCode]. rewrite Z.eqb_refl. cbn [negb].
      rewrite andb_false_r. reflexivity.
Qed.

(** C5.  A class request with wLength > 0 and the direction bit 0x80 set
    (device to host), on a configured device with a callback table.
    USBD_CDC_Setup returns USBD_OK and makes exactly two calls, in this
    order: Control with the context of the resolved instance, bRequest, the
    staging buffer and wLength; then USBD_CtlSendData of wLength bytes of
    the staging buffer.  Nothing is staged: only ctrlInst is written. *)
Theorem class_in_setup_calls_then_sends
    (w : World) (hcdc : USBD_CDC_HandleTypeDef) (req : USBD_SetupReqTypedef)
    (fops : USBD_CDC_ItfTypeDef) (c : Z) :
  pClassData (pdev w) = Some hcdc ->
  pUserData (pdev w) = Some fops ->
  Z.land (bmRequest req) USB_REQ_TYPE_MASK = USB_REQ_TYPE_CLASS ->
  0 < wLength req ->
  Z.land (bmRequest req) 0x80 <> 0 ->
  ctxPointers w !! Z.to_nat (instance_of_wIndex (wIndex req)) = Some c ->
  USBD_CDC_Setup req w =
  Some (USBD_OK,
        {| pdev := set_pClassData
                     (Some (set_ctrlInst (instance_of_wIndex (wIndex req)) hcdc))
                     (pdev w);
           ctxPointers := ctxPointers w;
           trace := trace w ++
                    [Itf_Control c (bRequest req) hcdc_data (wLength req);
                     USBD_CtlSendData hcdc_data (wLength req)] |}).
Proof.
  intros Hcd Hud Htype Hlen Hdir Hctx.
  assert (0 <= instance_of_wIndex (wIndex req)) as Hpos
    by (unfold instance_of_wIndex; destruct (_ || _); lia).
  unfold USBD_CDC_Setup. run. rewrite Hcd, Htype, Z.eqb_refl.
  unfold truthy.
  destruct (Z.eqb_spec (wLength req) 0); [lia |].
  destruct (Z.eqb_spec (Z.land (bmRequest req) 0x80) 0); [contradiction |].
  run. rewrite Hud. rewrite (index_lookup _ _ _ _ Hpos Hctx).
  run. rewrite <- app_assoc. reflexivity.
Qed.

(** C10.  USBD_CDC_EP0_RxReady on a configured device with no callback
    table registered (pUserData NULL) returns USBD_OK and changes nothing:
    no call is made and CmdOpCode keeps its value.  If that value is not
    0xFF, registering a table and raising the event again delivers it: one
    Control call with the stored opcode and length, after which CmdOpCode is
    0xFF. *)
Theorem EP0_RxReady_unregistered_keeps_opcode
    (w : World) (hcdc : USBD_CDC_HandleTypeDef) (fops : USBD_CDC_ItfTypeDef)
    (c : Z) :
  pClassData (pdev w) = Some hcdc ->
  pUserData (pdev w) = None ->
  USBD_CDC_EP0_RxReady w = Some (USBD_OK, w) /\
  (CmdOpCode hcdc <> 0xFF ->
   0 <= ctrlInst hcdc ->
   ctxPointers w !! Z.to_nat (ctrlInst hcdc) = Some c ->
   (USBD_CDC_EP0_RxReady ;;
    USBD_CDC_RegisterInterface (Some fops) ;;
    USBD_CDC_EP0_RxReady) w =
   Some (USBD_OK,
         {| pdev := {| dev_speed := dev_speed (pdev w);
                       pClassData := Some (set_CmdOpCode 0xFF hcdc);
                       pUserData := Some fops |};
            ctxPointers := ctxPointers w;
            trace := trace w ++
                     [Itf_Control c (CmdOpCode hcdc) hcdc_data
                        (CmdLength hcdc)] |})).
Proof.
  intros Hcd Hud.
  assert (USBD_CDC_EP0_RxReady w = Some (USBD_OK, w)) as Hidle.
  { unfold USBD_CDC_EP0_RxReady. run. rewrite Hcd, Hud.
    rewrite bool_decide_eq_false_2 by (intros [? ?]; discriminate).
    reflexivity. }
  split; [exact Hidle |].
  intros Hop Hpos Hctx.
  unfold bind at 1. rewrite Hidle.
  unfold USBD_CDC_RegisterInterface, USBD_CDC_EP0_RxReady. run. rewrite Hcd.
  rewrite bool_decide_eq_true_2 by (eexists; reflexivity).
  destruct (Z.eqb_spec (CmdOpCode hcdc) 0xFF); [contradiction |].
  cbn [negb andb]. rewrite (index_lookup _ _ _ _ Hpos Hctx). run.
  rewrite Hcd. reflexivity.
Qed.

(** No handler that runs after configuration, other than
    USBD_CDC_ReceivePacket, arms a bulk-OUT endpoint. *)
Lemma handlers_do_not_arm :
  (forall rx epnum, emits_only not_PrepareReceive (USBD_CDC_DataOut rx epnum)) /\
  (forall epnum, emits_only not_PrepareReceive (USBD_CDC_DataIn epnum)) /\
  (forall req, emits_only not_PrepareReceive (USBD_CDC_Setup req)) /\
  emits_only not_PrepareReceive USBD_CDC_EP0_RxReady /\
  (forall i, emits_only not_PrepareReceive (USBD_CDC_TransmitPacket i)) /\
  (forall i b l, emits_only not_PrepareReceive (USBD_CDC_SetTxBuffer i b l)) /\
  (forall i b, emits_only not_PrepareReceive (USBD_CDC_SetRxBuffer i b)) /\
  (forall f, emits_only not_PrepareReceive (USBD_CDC_RegisterInterface f)).
Proof.
  repeat apply conj; intros;
    unfold USBD_CDC_DataOut, USBD_CDC_DataIn, USBD_CDC_Setup,
      USBD_CDC_EP0_RxReady, USBD_CDC_TransmitPacket, USBD_CDC_SetTxBuffer,
      USBD_CDC_SetRxBuffer, USBD_CDC_RegisterInterface;
    frame; emits_step.
Qed.

(** C6.  USBD_CDC_DataOut on a configured device stores the byte count the
    link layer reports in RxLength[instance], and the one call it then
    makes is Receive with the context of that instance, RxBuffer[instance]
    and a length word holding that count; RxLength[instance] afterwards
    holds what the callback left there.  It makes no USBD_LL_PrepareReceive
    call in any world, and neither do USBD_CDC_DataIn, USBD_CDC_Setup,
    USBD_CDC_EP0_RxReady and USBD_CDC_TransmitPacket.
    USBD_CDC_ReceivePacket for instance 0 or 1 returns USBD_OK, leaves the
    device and the context table untouched and makes exactly one call,
    USBD_LL_PrepareReceive of RxBuffer[instance] on that instance's bulk-OUT
    endpoint at the packet size of the device speed; calling it again
    repeats the same arming and still changes no state. *)
Theorem DataOut_delivers_ReceivePacket_arms
    (w : World) (hcdc : USBD_CDC_HandleTypeDef) (fops : USBD_CDC_ItfTypeDef)
    (rx : Z -> Z) (epnum c buf old instance ibuf : Z) :
  pClassData (pdev w) = Some hcdc ->
  pUserData (pdev w) = Some fops ->
  ctxPointers w !! Z.to_nat (instance_of_epnum epnum) = Some c ->
  RxBuffer hcdc !! Z.to_nat (instance_of_epnum epnum) = Some buf ->
  RxLength hcdc !! Z.to_nat (instance_of_epnum epnum) = Some old ->
  instance = 0 \/ instance = 1 ->
  RxBuffer hcdc !! Z.to_nat instance = Some ibuf ->
  let arm :=
    USBD_LL_PrepareReceive
      (if decide (instance = 0) then CDC_OUT_EP else CDC2_OUT_EP)
      ibuf
      (out_packet_size (dev_speed (pdev w))) in
  USBD_CDC_DataOut rx epnum w =
  Some (USBD_OK,
        {| pdev := set_pClassData
                     (Some (set_RxLength
                              (<[Z.to_nat (instance_of_epnum epnum) :=
                                   Receive fops c buf (rx epnum)]>
                                 (RxLength hcdc))
                              hcdc))
                     (pdev w);
           ctxPointers := ctxPointers w;
           trace := trace w ++ [Itf_Receive c buf (rx epnum)] |}) /\
  emits_only not_PrepareReceive (USBD_CDC_DataOut rx epnum) /\
  (forall e, emits_only not_PrepareReceive (USBD_CDC_DataIn e)) /\
  (forall r, emits_only not_PrepareReceive (USBD_CDC_Setup r)) /\
  emits_only not_PrepareReceive USBD_CDC_EP0_RxReady /\
  (forall i, emits_only not_PrepareReceive (USBD_CDC_TransmitPacket i)) /\
  USBD_CDC_ReceivePacket instance w =
  Some (USBD_OK,
        {| pdev := pdev w; ctxPointers := ctxPointers w;
           trace := trace w ++ [arm] |}) /\
  (USBD_CDC_ReceivePacket instance ;; USBD_CDC_ReceivePacket instance) w =
  Some (USBD_OK,
        {| pdev := pdev w; ctxPointers := ctxPointers w;
           trace := trace w ++ [arm; arm] |}).
Proof.
  intros Hcd Hud Hctx Hbuf Hold Hinst Hibuf arm.
  destruct handlers_do_not_arm as (Fout & Fin & Fsetup & Fready & Ftx & _).
  assert (0 <= instance_of_epnum epnum) as Hpos
    by (unfold instance_of_epnum; destruct (truthy _); lia).
  pose proof (lookup_in_range _ _ _ Hpos Hold) as Hrange.
  assert (0 <= instance) as Hipos by lia.
  assert (forall w0 : World,
            pClassData (pdev w0) = Some hcdc ->
            dev_speed (pdev w0) = dev_speed (pdev w) ->
            USBD_CDC_ReceivePacket instance w0 =
            Some (USBD_OK,
                  {| pdev := pdev w0; ctxPointers := ctxPointers w0;
                     trace := trace w0 ++ [arm] |})) as Harm.
  { intros w0 Hcd0 Hspeed. unfold USBD_CDC_ReceivePacket. run.
    rewrite Hcd0, Hspeed.
    rewrite (index_lookup _ _ _ _ Hipos Hibuf). unfold arm, out_packet_size.
    destruct (Z.eqb_spec (dev_speed (pdev w)) USBD_SPEED_HIGH);
      destruct (decide (dev_speed (pdev w) = USBD_SPEED_HIGH));
      try contradiction;
      destruct Hinst as [-> | ->]; reflexivity. }
  repeat split; auto.
  - unfold USBD_CDC_DataOut. run. rewrite Hcd.
    rewrite (assign_in_range _ _ _ _ Hrange). run. rewrite Hcd. run.
    rewrite Hud. run.
    rewrite (index_lookup _ _ _ _ Hpos Hctx).
    cbn [RxBuffer RxLength set_RxLength].
    rewrite (index_lookup _ _ _ _ Hpos Hbuf).
    rewrite (index_lookup (<[_ := _]> _) _ (rx epnum))
      by (try apply list_lookup_insert_eq; lia).
    run. rewrite assign_in_range by (rewrite length_insert; lia).
    run. rewrite list_insert_insert_eq. reflexivity.
  - unfold bind. rewrite (Harm w Hcd eq_refl).
    rewrite Harm by (cbn [pdev]; first [exact Hcd | reflexivity]).
    cbn [trace pdev ctxPointers].
    rewrite <- app_assoc. reflexivity.
Qed.


(** *** The pending opcode after configuration *)

(** None of these entry points stores to CmdOpCode, frees the class handle
    or unregisters the callback table; USBD_CDC_Setup is among them for the
    setup packets it does not stage. *)
Lemma handlers_keep_opcode :
  (forall epnum, preserves keeps_opcode (USBD_CDC_DataIn epnum)) /\
  (forall rx epnum, preserves keeps_opcode (USBD_CDC_DataOut rx epnum)) /\
  (forall i b l, preserves keeps_opcode (USBD_CDC_SetTxBuffer i b l)) /\
  (forall i b, preserves keeps_opcode (USBD_CDC_SetRxBuffer i b)) /\
  (forall i, preserves keeps_opcode (USBD_CDC_TransmitPacket i)) /\
  (forall i, preserves keeps_opcode (USBD_CDC_ReceivePacket i)) /\
  (forall req, stages_data req = false ->
     preserves keeps_opcode (USBD_CDC_Setup req)).
Proof.
  repeat apply conj; intros;
    unfold USBD_CDC_DataOut, USBD_CDC_DataIn, USBD_CDC_Setup,
      USBD_CDC_TransmitPacket, USBD_CDC_ReceivePacket, USBD_CDC_SetTxBuffer,
      USBD_CDC_SetRxBuffer;
    frame; try keeps_step.
  all: exfalso; unfold stages_data in *;
    repeat match goal with
           | E : _ = true |- _ => rewrite E in *; clear E
           | E : _ = false |- _ => rewrite E in *; clear E
           end; discriminate.
Qed.

Lemma Setup_keeps_handles (req : USBD_SetupReqTypedef) :
  preserves keeps_handles (USBD_CDC_Setup req).
Proof. unfold USBD_CDC_Setup. frame; keeps_step. Qed.

Lemma RegisterInterface_keeps_opcode (fops : option USBD_CDC_ItfTypeDef) :
  preserves keeps_opcode (USBD_CDC_RegisterInterface fops).
Proof.
  intros w r w' Hrun. destruct fops as [f |]; injection Hrun as <- <-.
  - split; cbn [pdev pUserData pClassData set_pUserData].
    + intros _. eexists. reflexivity.
    + intros h Hh. exists h. split; [exact Hh | reflexivity].
  - reflexivity.
Qed.

(** Once the driver is configured, every entry point other than
    USBD_CDC_Init and USBD_CDC_DeInit maintains the invariant: CmdOpCode is
    0xFF except between a staging setup packet and the next
    control-data-ready event. *)
Lemma opcode_invariant_preserved
    (op : dispatch) (awaiting : bool) (w : World) (r : Z) (w' : World) :
  opcode_invariant awaiting w ->
  run_dispatch op w = Some (r, w') ->
  opcode_invariant (awaiting_data op awaiting) w'.
Proof.
  intros (Hud & hcdc & Hcd & Hop) Hrun.
  destruct handlers_keep_opcode
    as (Hin & Hout & Hstx & Hsrx & Htx & Hrx & Hsetup).
  assert (forall m : M Z, preserves keeps_opcode m -> m w = Some (r, w') ->
                          opcode_invariant awaiting w') as Hkeep.
  { intros m Hm Hmrun. destruct (Hm _ _ _ Hmrun) as [Hu Hc].
    destruct (Hc hcdc Hcd) as (h' & Hcd' & Eop).
    split; [auto |]. exists h'.
    split; [exact Hcd' | intros Ha; rewrite Eop; exact (Hop Ha)]. }
  destruct op; cbn [run_dispatch awaiting_data] in *;
    try (eapply Hkeep; [| exact Hrun]; auto using RegisterInterface_keeps_opcode;
         fail).
  - destruct (stages_data req) eqn:Hst; cbn [orb].
    + destruct (Setup_keeps_handles req _ _ _ Hrun) as [Hu Hc].
      split; [auto |].
      destruct (Hc ltac:(eexists; exact Hcd)) as [h' Hcd'].
      exists h'. split; [exact Hcd' | discriminate].
    + eapply Hkeep; [| exact Hrun]. auto.
  - unfold USBD_CDC_EP0_RxReady in Hrun. run in Hrun. rewrite Hcd in Hrun.
    rewrite (bool_decide_eq_true_2 _ Hud) in Hrun.
    destruct (Z.eqb_spec (CmdOpCode hcdc) 0xFF) as [Eff | Nff];
      cbn [negb andb] in Hrun.
    + injection Hrun as <- <-. split; [exact Hud |].
      exists hcdc. split; [exact Hcd | intros _; exact Eff].
    + destruct (index (ctxPointers w) (ctrlInst hcdc) w) as [[c w0] |] eqn:Ei;
        [| discriminate].
      assert (w0 = w) as ->.
      { unfold index in Ei. destruct (0 <=? ctrlInst hcdc); [| discriminate].
        destruct (ctxPointers w !! Z.to_nat (ctrlInst hcdc));
          [injection Ei as _ <-; reflexivity | discriminate]. }
      run in Hrun. rewrite Hcd in Hrun. injection Hrun as <- <-.
      split; [exact Hud |]. eexists. split; [reflexivity |].
      intros _. reflexivity.
Qed.

Lemma opcode_invariant_run_all
    (ops : list dispatch) (awaiting : bool) (w : World) (w' : World) :
  opcode_invariant awaiting w ->
  run_all ops w = Some (tt, w') ->
  opcode_invariant (awaiting_after ops awaiting) w'.
Proof.
  revert awaiting w. induction ops as [| op rest IH]; intros awaiting w Hinv Hrun.
  - injection Hrun as <-. exact Hinv.
  - cbn [run_all] in Hrun. unfold bind in Hrun.
    destruct (run_dispatch op w) as [[r w1] |] eqn:Eop; [| discriminate].
    cbn [awaiting_after fold_left].
    apply (IH (awaiting_data op awaiting) w1); [| exact Hrun].
    exact (opcode_invariant_preserved op awaiting w r w1 Hinv Eop).
Qed.

(** C4.  USBD_CDC_Init never stores to CmdOpCode: after a successful
    initialisation the field holds whatever the allocated block held.  When
    that is not 0xFF, and with the likewise unwritten ctrlInst being 0, a
    USBD_CDC_EP0_RxReady with no setup packet before it calls Control for
    instance 0 with that value as the opcode. *)
Theorem Init_leaves_CmdOpCode_as_allocated
    (w : World) (blk : USBD_CDC_HandleTypeDef) (fops : USBD_CDC_ItfTypeDef)
    (cfgidx c0 c1 t0 t1 r0 r1 rx0 rx1 : Z) :
  pUserData (pdev w) = Some fops ->
  ctxPointers w = [c0; c1] ->
  TxState blk = [t0; t1] ->
  RxState blk = [r0; r1] ->
  RxBuffer blk !! 0%nat = Some rx0 ->
  RxBuffer blk !! 1%nat = Some rx1 ->
  exists (w1 : World) (h1 : USBD_CDC_HandleTypeDef),
    USBD_CDC_Init (Some blk) cfgidx w = Some (0, w1) /\
    pClassData (pdev w1) = Some h1 /\
    CmdOpCode h1 = CmdOpCode blk /\
    (CmdOpCode blk <> 0xFF ->
     ctrlInst blk = 0 ->
     exists w2 : World,
       USBD_CDC_EP0_RxReady w1 = Some (USBD_OK, w2) /\
       trace w2 =
       trace w1 ++
       [Itf_Control (Init fops 0 c0) (CmdOpCode blk) hcdc_data
          (CmdLength blk)]).
Proof.
  intros Hud Hctx Hts Hrs Hrx0 Hrx1.
  eexists. exists (initialised blk).
  split; [| split; [| split]].
  - exact (Init_allocated w blk fops cfgidx c0 c1 t0 t1 r0 r1 rx0 rx1
             Hud Hctx Hts Hrs Hrx0 Hrx1).
  - reflexivity.
  - reflexivity.
  - intros Hop Hinst. eexists. split.
    + unfold USBD_CDC_EP0_RxReady. run. rewrite Hud.
      cbn [CmdOpCode CmdLength ctrlInst initialised set_RxState set_TxState].
      rewrite bool_decide_eq_true_2 by (eexists; reflexivity).
      destruct (Z.eqb_spec (CmdOpCode blk) 0xFF); [contradiction |].
      run. rewrite Hinst, (proj1 (index_two _ _)). run. reflexivity.
    + reflexivity.
Qed.

(** C8.  USBD_CDC_Setup on a configured device.  With a callback table
    registered it returns USBD_OK for every setup packet.  A request whose
    type is not class, other than a standard GET_INTERFACE, makes no call
    and stages nothing: the only store is the resolved instance in ctrlInst,
    which every setup packet performs.  This covers the standard
    SET_INTERFACE.  A standard GET_INTERFACE makes one call,
    USBD_CtlSendData of one byte at ifalt, whose value is 0. *)
Theorem Setup_always_OK
    (w : World) (hcdc : USBD_CDC_HandleTypeDef) (req : USBD_SetupReqTypedef) :
  pClassData (pdev w) = Some hcdc ->
  USB_REQ_TYPE_STANDARD <> USB_REQ_TYPE_CLASS ->
  USB_REQ_SET_INTERFACE <> USB_REQ_GET_INTERFACE ->
  let type := Z.land (bmRequest req) USB_REQ_TYPE_MASK in
  let recorded :=
    set_pClassData
      (Some (set_ctrlInst (instance_of_wIndex (wIndex req)) hcdc)) (pdev w) in
  let quiet :=
    {| pdev := recorded; ctxPointers := ctxPointers w; trace := trace w |} in
  (forall fops c0 c1,
     pUserData (pdev w) = Some fops ->
     ctxPointers w = [c0; c1] ->
     exists w', USBD_CDC_Setup req w = Some (USBD_OK, w')) /\
  (type <> USB_REQ_TYPE_CLASS ->
   ~ (type = USB_REQ_TYPE_STANDARD /\ bRequest req = USB_REQ_GET_INTERFACE) ->
   USBD_CDC_Setup req w = Some (USBD_OK, quiet)) /\
  (type = USB_REQ_TYPE_STANDARD ->
   bRequest req = USB_REQ_SET_INTERFACE ->
   USBD_CDC_Setup req w = Some (USBD_OK, quiet)) /\
  (type = USB_REQ_TYPE_STANDARD ->
   bRequest req = USB_REQ_GET_INTERFACE ->
   USBD_CDC_Setup req w =
   Some (USBD_OK,
         {| pdev := recorded; ctxPointers := ctxPointers w;
            trace := trace w ++ [USBD_CtlSendData ifalt_addr 1] |}) /\
   ifalt = 0).
Proof.
  intros Hcd Hcase Hreq type recorded quiet.
  assert (type <> USB_REQ_TYPE_CLASS ->
          ~ (type = USB_REQ_TYPE_STANDARD /\
             bRequest req = USB_REQ_GET_INTERFACE) ->
          USBD_CDC_Setup req w = Some (USBD_OK, quiet)) as Hquiet.
  { intros Hnc Hng. unfold USBD_CDC_Setup. run. rewrite Hcd. fold type.
    destruct (Z.eqb_spec type USB_REQ_TYPE_CLASS); [contradiction |].
    destruct (Z.eqb_spec type USB_REQ_TYPE_STANDARD) as [Hstd | Hstd].
    - destruct (Z.eqb_spec (bRequest req) USB_REQ_GET_INTERFACE) as [Hg | Hg];
        [exfalso; apply Hng; split; assumption |].
      destruct (bRequest req =? USB_REQ_SET_INTERFACE); reflexivity.
    - reflexivity. }
  assert (type = USB_REQ_TYPE_STANDARD ->
          bRequest req = USB_REQ_GET_INTERFACE ->
          USBD_CDC_Setup req w =
          Some (USBD_OK,
                {| pdev := recorded; ctxPointers := ctxPointers w;
                   trace := trace w ++ [USBD_CtlSendData ifalt_addr 1] |}))
    as Hget.
  { intros Hstd Hg. unfold USBD_CDC_Setup. run. rewrite Hcd. fold type.
    rewrite Hstd, Hg.
    destruct (Z.eqb_spec USB_REQ_TYPE_STANDARD USB_REQ_TYPE_CLASS);
      [contradiction |].
    rewrite !Z.eqb_refl. reflexivity. }
  split; [| split; [exact Hquiet | split]].
  - intros fops c0 c1 Hud Hctx.
    destruct (Z.eq_dec type USB_REQ_TYPE_CLASS) as [Hc | Hnc].
    + assert (exists c, index (ctxPointers w)
                          (instance_of_wIndex (wIndex req)) =
                        ret c) as [c Hc0].
      { rewrite Hctx. unfold instance_of_wIndex.
        destruct (_ || _); eexists; apply index_two. }
      unfold USBD_CDC_Setup. run. rewrite Hcd. fold type.
      rewrite Hc, Z.eqb_refl.
      destruct (truthy (wLength req));
        [destruct (truthy (Z.land (bmRequest req) 128)) |];
        run; rewrite ?Hud, ?Hc0; run; rewrite ?Hc0; run; eexists; reflexivity.
    + destruct (Z.eq_dec type USB_REQ_TYPE_STANDARD) as [Hs | Hns];
        [destruct (Z.eq_dec (bRequest req) USB_REQ_GET_INTERFACE) as [Hg | Hng]
        |].
      * eexists. apply Hget; assumption.
      * eexists. apply Hquiet; [assumption | intros [_ ?]; contradiction].
      * eexists. apply Hquiet; [assumption | intros [? _]; contradiction].
  - intros Hstd Hset. apply Hquiet.
    + rewrite Hstd. exact Hcase.
    + intros [_ Hg]. apply Hreq. rewrite <- Hset, <- Hg. reflexivity.
  - intros Hstd Hg. split; [apply Hget; assumption | reflexivity].
Qed.

End Proofs.

(** ** The statements on the sample board *)


Lemma instance_classification_witness :
  (0 <= 2 /\ CDC2_EP_MASK (Constants:=sample_board) = 2 ^ 2) /\
  instance_of_epnum (H:=sample_board) 0x85 = 1 /\
  instance_of_epnum (H:=sample_board) 0x81 = 0 /\
  instance_of_wIndex (H:=sample_board) 3 = 1 /\
  instance_of_wIndex (H:=sample_board) 1 = 0.
Proof.
  split; [split; [lia | reflexivity] |].
  destruct (instance_classification (H:=sample_board) 0x85 3)
    as (_ & _ & Hbit & Hidx & _).
  destruct (instance_classification (H:=sample_board) 0x81 1)
    as (_ & _ & Hbit0 & _ & Hidx0).
  split; [exact (Hbit 2 ltac:(lia) eq_refl) |].
  split; [exact (Hbit0 2 ltac:(lia) eq_refl) |].
  split; [apply Hidx; right; reflexivity |].
  apply Hidx0. split; discriminate.
Defined.

Lemma class_out_setup_delivered_once_witness :
  let staged := set_CmdLength 8 (set_CmdOpCode 0x20 sample_hcdc) in
  let w1 :=
    {| pdev := {| dev_speed := 1; pClassData := Some staged;
                  pUserData := Some sample_fops |};
       ctxPointers := [100; 101];
       trace := [USBD_CtlPrepareRx hcdc_data 8] |} in
  let w2 :=
    {| pdev := {| dev_speed := 1; pClassData := Some (set_CmdOpCode 0xFF staged);
                  pUserData := Some sample_fops |};
       ctxPointers := [100; 101];
       trace := [USBD_CtlPrepareRx hcdc_data 8;
                 Itf_Control 100 0x20 hcdc_data 8] |} in
  (Z.land (bmRequest sample_out_req) (USB_REQ_TYPE_MASK (Constants:=sample_board))
   = USB_REQ_TYPE_CLASS (Constants:=sample_board) /\
   0 < wLength sample_out_req /\
   Z.land (bmRequest sample_out_req) 0x80 = 0 /\
   bRequest sample_out_req <> 0xFF) /\
  USBD_CDC_Setup (H:=sample_board) sample_out_req sample_world = Some (0, w1) /\
  USBD_CDC_EP0_RxReady (H:=sample_board) w1 = Some (0, w2) /\
  USBD_CDC_EP0_RxReady (H:=sample_board) w2 = Some (0, w2).
Proof.
  intros staged w1 w2.
  split; [repeat split; try reflexivity; discriminate |].
  destruct (class_out_setup_delivered_once (H:=sample_board)
              sample_world sample_hcdc sample_out_req sample_fops 100
              eq_refl eq_refl eq_refl eq_refl) as [Hsetup Hready].
  split; [exact Hsetup |].
  apply Hready; [reflexivity | discriminate | reflexivity].
Defined.

Lemma class_in_setup_calls_then_sends_witness :
  (Z.land (bmRequest sample_in_req) (USB_REQ_TYPE_MASK (Constants:=sample_board))
   = USB_REQ_TYPE_CLASS (Constants:=sample_board) /\
   0 < wLength sample_in_req /\
   Z.land (bmRequest sample_in_req) 0x80 <> 0 /\
   instance_of_wIndex (H:=sample_board) (wIndex sample_in_req) = 0) /\
  USBD_CDC_Setup (H:=sample_board) sample_in_req sample_world =
  Some (0,
        {| pdev := pdev sample_world;
           ctxPointers := [100; 101];
           trace := [Itf_Control 100 0x21 hcdc_data 7;
                     USBD_CtlSendData hcdc_data 7] |}).
Proof.
  split; [repeat split; try reflexivity; discriminate |].
  apply (class_in_setup_calls_then_sends (H:=sample_board)
           sample_world sample_hcdc sample_in_req sample_fops 100);
    try reflexivity. discriminate.
Defined.

Lemma DataOut_delivers_ReceivePacket_arms_witness :
  (instance_of_epnum (H:=sample_board) 0x05 = 1 /\
   RxBuffer sample_hcdc !! Z.to_nat 1 = Some 0x2040) /\
  USBD_CDC_DataOut (H:=sample_board) (fun _ => 12) 0x05 sample_world =
  Some (0,
        {| pdev := {| dev_speed := 1;
                      pClassData := Some (set_RxLength [0; 12] sample_hcdc);
                      pUserData := Some sample_fops |};
           ctxPointers := [100; 101];
           trace := [Itf_Receive 101 0x2040 12] |}) /\
  USBD_CDC_ReceivePacket (H:=sample_board) 1 sample_world =
  Some (0,
        {| pdev := pdev sample_world; ctxPointers := [100; 101];
           trace := [USBD_LL_PrepareReceive 0x05 0x2040 64] |}).
Proof.
  split; [split; reflexivity |].
  destruct (DataOut_delivers_ReceivePacket_arms (H:=sample_board)
              sample_world sample_hcdc sample_fops (fun _ => 12)
              0x05 101 0x2040 0 1 0x2040
              eq_refl eq_refl eq_refl eq_refl eq_refl
              (or_intror eq_refl) eq_refl)
    as (Hout & _ & _ & _ & _ & _ & Harm & _).
  split; [exact Hout | exact Harm].
Defined.


Lemma Init_leaves_CmdOpCode_as_allocated_witness :
  (pUserData (pdev sample_unconfigured) = Some sample_fops /\
   CmdOpCode zeroed_block = 0 /\ ctrlInst zeroed_block = 0) /\
  exists w1 h1 w2,
    USBD_CDC_Init (H:=sample_board) (Some zeroed_block) 0 sample_unconfigured
    = Some (0, w1) /\
    pClassData (pdev w1) = Some h1 /\
    CmdOpCode h1 = 0 /\
    CmdOpCode h1 <> 0xFF /\
    USBD_CDC_EP0_RxReady (H:=sample_board) w1 = Some (0, w2) /\
    trace w2 = trace w1 ++ [Itf_Control 100 0 hcdc_data 0].
Proof.
  split; [repeat split; reflexivity |].
  destruct (Init_leaves_CmdOpCode_as_allocated (H:=sample_board)
              sample_unconfigured zeroed_block sample_fops 0 0 0 0 0 0 0 0 0
              eq_refl eq_refl eq_refl eq_refl eq_refl eq_refl)
    as (w1 & h1 & Hinit & Hcd & Hop & Hready).
  destruct (Hready ltac:(discriminate) eq_refl) as (w2 & Hrun & Htrace).
  exists w1, h1, w2.
  repeat split; try assumption.
  rewrite Hop. discriminate.
Defined.

Lemma Setup_always_OK_witness :
  (pClassData (pdev sample_world) = Some sample_hcdc /\
   USB_REQ_TYPE_STANDARD (Constants:=sample_board)
   <> USB_REQ_TYPE_CLASS (Constants:=sample_board) /\
   USB_REQ_SET_INTERFACE (Constants:=sample_board)
   <> USB_REQ_GET_INTERFACE (Constants:=sample_board)) /\
  USBD_CDC_Setup (H:=sample_board) sample_get_interface sample_world =
  Some (0,
        {| pdev := {| dev_speed := 1;
                      pClassData := Some (set_ctrlInst 1 sample_hcdc);
                      pUserData := Some sample_fops |};
           ctxPointers := [100; 101];
           trace := [USBD_CtlSendData ifalt_addr 1] |}) /\
  ifalt = 0.
Proof.
  split; [repeat split; try reflexivity; discriminate |].
  destruct (Setup_always_OK (H:=sample_board)
              sample_world sample_hcdc sample_get_interface
              eq_refl ltac:(discriminate) ltac:(discriminate))
    as (_ & _ & _ & Hget).
  exact (Hget eq_refl eq_refl).
Defined.

Lemma EP0_RxReady_unregistered_keeps_opcode_witness :
  let staged := set_CmdLength 8 (set_CmdOpCode 0x20 sample_hcdc) in
  (pClassData (pdev sample_unregistered) = Some staged /\
   pUserData (pdev sample_unregistered) = None /\
   CmdOpCode staged <> 0xFF) /\
  USBD_CDC_EP0_RxReady (H:=sample_board) sample_unregistered =
  Some (0, sample_unregistered) /\
  (USBD_CDC_EP0_RxReady (H:=sample_board) ;;
   USBD_CDC_RegisterInterface (H:=sample_board) (Some sample_fops) ;;
   USBD_CDC_EP0_RxReady (H:=sample_board)) sample_unregistered =
  Some (0,
        {| pdev := {| dev_speed := 1;
                      pClassData := Some (set_CmdOpCode 0xFF staged);
                      pUserData := Some sample_fops |};
           ctxPointers := [100; 101];
           trace := [Itf_Control 100 0x20 hcdc_data 8] |}).
Proof.
  intros staged.
  split; [repeat split; try reflexivity; discriminate |].
  destruct (EP0_RxReady_unregistered_keeps_opcode (H:=sample_board)
              sample_unregistered staged sample_fops 100 eq_refl eq_refl)
    as [Hidle Hlater].
  split; [exact Hidle |].
  apply Hlater; [discriminate | discriminate | reflexivity].
Defined.

(** The claim that a standard SET_INTERFACE changes no state, on the sample
    board: the request is accepted and makes no call, yet ctrlInst, which
    was 0, is 1 afterwards. *)
Lemma SET_INTERFACE_changes_state :
  exists w' : World,
    USBD_CDC_Setup (H:=sample_board) sample_set_interface sample_world =
    Some (0, w') /\
    trace w' = trace sample_world /\
    ctrlInst <$> pClassData (pdev sample_world) = Some 0 /\
    ctrlInst <$> pClassData (pdev w') = Some 1 /\
    pdev w' <> pdev sample_world.
Proof.
  exists {| pdev := {| dev_speed := 1;
                       pClassData := Some (set_ctrlInst 1 sample_hcdc);
                       pUserData := Some sample_fops |};
            ctxPointers := [100; 101]; trace := [] |}.
  split; [reflexivity |].
  repeat split. intros Heq. discriminate Heq.
Qed.

(** ** Further properties of the driver *)

(** *** Single steps on a configured device *)

Lemma bind_run {A B} (m : M A) (k : A -> M B) (w w1 : World) (a : A) :
  m w = Some (a, w1) -> bind m k w = k a w1.
Proof. intros Hm. unfold bind. rewrite Hm. reflexivity. Qed.

Lemma after_after (w : World) (h1 h2 : USBD_CDC_HandleTypeDef)
    (e1 e2 : list event) :
  after (after w h1 e1) h2 e2 = after w h2 (e1 ++ e2).
Proof. unfold after. cbn. rewrite <- app_assoc. reflexivity. Qed.

Lemma called_after (w : World) (h : USBD_CDC_HandleTypeDef)
    (e1 e2 : list event) :
  called (after w h e1) e2 = after w h (e1 ++ e2).
Proof. unfold after, called. cbn. rewrite <- app_assoc. reflexivity. Qed.

Lemma called_called (w : World) (e1 e2 : list event) :
  called (called w e1) e2 = called w (e1 ++ e2).
Proof. unfold called. cbn. rewrite <- app_assoc. reflexivity. Qed.

Lemma instance_of_wIndex_nonneg `{Constants} (windex : Z) :
  0 <= instance_of_wIndex windex.
Proof. unfold instance_of_wIndex. destruct (_ || _); lia. Qed.

Lemma instance_of_epnum_nonneg `{Constants} (epnum : Z) :
  0 <= instance_of_epnum epnum.
Proof. unfold instance_of_epnum. destruct (truthy _); lia. Qed.

Section Steps.

Context `{Constants}.

Lemma run_TransmitPacket_idle
    (w : World) (h : USBD_CDC_HandleTypeDef) (instance buf len : Z) :
  pClassData (pdev w) = Some h ->
  0 <= instance ->
  TxState h !! Z.to_nat instance = Some 0 ->
  TxBuffer h !! Z.to_nat instance = Some buf ->
  TxLength h !! Z.to_nat instance = Some len ->
  USBD_CDC_TransmitPacket instance w =
  Some (USBD_OK,
        after w (set_TxState (<[Z.to_nat instance := 1]> (TxState h)) h)
          [USBD_LL_Transmit (bulk_in_ep instance) buf len]).
Proof.
  intros Hcd Hpos Hst Hbuf Hlen.
  pose proof (lookup_in_range _ _ _ Hpos Hst) as Hrange.
  unfold USBD_CDC_TransmitPacket. run. rewrite Hcd.
  rewrite (index_lookup _ _ _ _ Hpos Hst). cbn [Z.eqb].
  rewrite (assign_in_range _ _ _ _ Hrange). run. rewrite Hcd. run.
  cbn [TxBuffer TxLength set_TxState].
  rewrite (index_lookup _ _ _ _ Hpos Hbuf), (index_lookup _ _ _ _ Hpos Hlen).
  reflexivity.
Qed.

Lemma run_TransmitPacket_busy
    (w : World) (h : USBD_CDC_HandleTypeDef) (instance st : Z) :
  pClassData (pdev w) = Some h ->
  0 <= instance ->
  TxState h !! Z.to_nat instance = Some st ->
  st <> 0 ->
  USBD_CDC_TransmitPacket instance w = Some (USBD_BUSY, w).
Proof.
  intros Hcd Hpos Hst Hbusy.
  unfold USBD_CDC_TransmitPacket. run. rewrite Hcd.
  rewrite (index_lookup _ _ _ _ Hpos Hst).
  destruct (Z.eqb_spec st 0); [contradiction | reflexivity].
Qed.

Lemma run_DataIn
    (w : World) (h : USBD_CDC_HandleTypeDef) (fops : USBD_CDC_ItfTypeDef)
    (epnum st c : Z) :
  pClassData (pdev w) = Some h ->
  pUserData (pdev w) = Some fops ->
  TxState h !! Z.to_nat (instance_of_epnum epnum) = Some st ->
  ctxPointers w !! Z.to_nat (instance_of_epnum epnum) = Some c ->
  USBD_CDC_DataIn epnum w =
  Some (USBD_OK,
        after w
          (set_TxState (<[Z.to_nat (instance_of_epnum epnum) := 0]> (TxState h)) h)
          [Itf_TxComplete c]).
Proof.
  intros Hcd Hud Hst Hctx.
  pose proof (instance_of_epnum_nonneg epnum) as Hpos.
  pose proof (lookup_in_range _ _ _ Hpos Hst) as Hrange.
  unfold USBD_CDC_DataIn. run. rewrite Hcd.
  rewrite (assign_in_range _ _ _ _ Hrange). run. rewrite Hcd. run.
  rewrite Hud. run. rewrite (index_lookup _ _ _ _ Hpos Hctx). reflexivity.
Qed.

Lemma run_ReceivePacket
    (w : World) (h : USBD_CDC_HandleTypeDef) (instance buf : Z) :
  pClassData (pdev w) = Some h ->
  0 <= instance ->
  RxBuffer h !! Z.to_nat instance = Some buf ->
  USBD_CDC_ReceivePacket instance w =
  Some (USBD_OK,
        called w [USBD_LL_PrepareReceive (bulk_out_ep instance) buf
                    (out_packet_size (dev_speed (pdev w)))]).
Proof.
  intros Hcd Hpos Hbuf.
  unfold USBD_CDC_ReceivePacket, out_packet_size. run. rewrite Hcd.
  rewrite (index_lookup _ _ _ _ Hpos Hbuf).
  destruct (Z.eqb_spec (dev_speed (pdev w)) USBD_SPEED_HIGH);
    destruct (decide (dev_speed (pdev w) = USBD_SPEED_HIGH));
    try contradiction; reflexivity.
Qed.

Lemma run_DataOut
    (w : World) (h : USBD_CDC_HandleTypeDef) (fops : USBD_CDC_ItfTypeDef)
    (rx : Z -> Z) (epnum c buf old : Z) :
  pClassData (pdev w) = Some h ->
  pUserData (pdev w) = Some fops ->
  ctxPointers w !! Z.to_nat (instance_of_epnum epnum) = Some c ->
  RxBuffer h !! Z.to_nat (instance_of_epnum epnum) = Some buf ->
  RxLength h !! Z.to_nat (instance_of_epnum epnum) = Some old ->
  USBD_CDC_DataOut rx epnum w =
  Some (USBD_OK,
        after w
          (set_RxLength
             (<[Z.to_nat (instance_of_epnum epnum) :=
                  Receive fops c buf (rx epnum)]> (RxLength h)) h)
          [Itf_Receive c buf (rx epnum)]).
Proof.
  intros Hcd Hud Hctx Hbuf Hold.
  pose proof (instance_of_epnum_nonneg epnum) as Hpos.
  pose proof (lookup_in_range _ _ _ Hpos Hold) as Hrange.
  unfold USBD_CDC_DataOut. run. rewrite Hcd.
  rewrite (assign_in_range _ _ _ _ Hrange). run. rewrite Hcd. run.
  rewrite Hud. run.
  rewrite (index_lookup _ _ _ _ Hpos Hctx).
  cbn [RxBuffer RxLength set_RxLength].
  rewrite (index_lookup _ _ _ _ Hpos Hbuf).
  rewrite (index_lookup (<[_ := _]> _) _ (rx epnum))
    by (try apply list_lookup_insert_eq; lia).
  run. rewrite assign_in_range by (rewrite length_insert; lia).
  run. rewrite list_insert_insert_eq. reflexivity.
Qed.

Lemma run_SetTxBuffer
    (w : World) (h : USBD_CDC_HandleTypeDef) (instance pbuff len : Z) :
  pClassData (pdev w) = Some h ->
  0 <= instance < Z.of_nat (length (TxBuffer h)) ->
  0 <= instance < Z.of_nat (length (TxLength h)) ->
  USBD_CDC_SetTxBuffer instance pbuff len w =
  Some (USBD_OK,
        after w
          (set_TxLength (<[Z.to_nat instance := len]> (TxLength h))
             (set_TxBuffer (<[Z.to_nat instance := pbuff]> (TxBuffer h)) h))
          []).
Proof.
  intros Hcd Hb Hl.
  unfold USBD_CDC_SetTxBuffer. run. rewrite Hcd.
  rewrite (assign_in_range _ _ _ _ Hb). run. rewrite Hcd. run.
  rewrite (assign_in_range _ _ _ _ Hl). run.
  unfold after. rewrite app_nil_r. reflexivity.
Qed.

Lemma run_SetRxBuffer
    (w : World) (h : USBD_CDC_HandleTypeDef) (instance pbuff : Z) :
  pClassData (pdev w) = Some h ->
  0 <= instance < Z.of_nat (length (RxBuffer h)) ->
  USBD_CDC_SetRxBuffer instance pbuff w =
  Some (USBD_OK,
        after w (set_RxBuffer (<[Z.to_nat instance := pbuff]> (RxBuffer h)) h)
          []).
Proof.
  intros Hcd Hb.
  unfold USBD_CDC_SetRxBuffer. run. rewrite Hcd.
  rewrite (assign_in_range _ _ _ _ Hb). run. rewrite Hcd. run.
  unfold after. rewrite app_nil_r. reflexivity.
Qed.

Lemma run_Setup_staging
    (w : World) (h : USBD_CDC_HandleTypeDef) (req : USBD_SetupReqTypedef) :
  pClassData (pdev w) = Some h ->
  stages_data req = true ->
  USBD_CDC_Setup req w =
  Some (USBD_OK,
        after w
          (set_CmdLength (CmdLength_conv (wLength req))
             (set_CmdOpCode (bRequest req)
                (set_ctrlInst (instance_of_wIndex (wIndex req)) h)))
          [USBD_CtlPrepareRx hcdc_data (wLength req)]).
Proof.
  intros Hcd Hst. unfold stages_data in Hst.
  apply andb_prop in Hst as [Hst Hdir]. apply andb_prop in Hst as [Htype Hlen].
  apply negb_true_iff in Hdir.
  unfold USBD_CDC_Setup. run. rewrite Hcd, Htype, Hlen, Hdir. reflexivity.
Qed.

Lemma run_Setup_only_recorded
    (w : World) (h : USBD_CDC_HandleTypeDef) (req : USBD_SetupReqTypedef) :
  pClassData (pdev w) = Some h ->
  only_recorded req ->
  USBD_CDC_Setup req w =
  Some (USBD_OK,
        after w (set_ctrlInst (instance_of_wIndex (wIndex req)) h) []).
Proof.
  intros Hcd [Hnc Hng]. unfold USBD_CDC_Setup. run. rewrite Hcd.
  destruct (Z.eqb_spec (Z.land (bmRequest req) USB_REQ_TYPE_MASK)
              USB_REQ_TYPE_CLASS); [contradiction |].
  unfold after. rewrite app_nil_r.
  destruct (Z.eqb_spec (Z.land (bmRequest req) USB_REQ_TYPE_MASK)
              USB_REQ_TYPE_STANDARD) as [Hstd | Hstd]; [| reflexivity].
  destruct (Z.eqb_spec (bRequest req) USB_REQ_GET_INTERFACE) as [Hg | Hg];
    [exfalso; apply Hng; split; assumption |].
  destruct (bRequest req =? USB_REQ_SET_INTERFACE); reflexivity.
Qed.

Lemma run_Setup_no_data
    (w : World) (h : USBD_CDC_HandleTypeDef) (fops : USBD_CDC_ItfTypeDef)
    (req : USBD_SetupReqTypedef) (c : Z) :
  pClassData (pdev w) = Some h ->
  pUserData (pdev w) = Some fops ->
  Z.land (bmRequest req) USB_REQ_TYPE_MASK = USB_REQ_TYPE_CLASS ->
  wLength req = 0 ->
  ctxPointers w !! Z.to_nat (instance_of_wIndex (wIndex req)) = Some c ->
  USBD_CDC_Setup req w =
  Some (USBD_OK,
        after w (set_ctrlInst (instance_of_wIndex (wIndex req)) h)
          [Itf_Control c (bRequest req) req_bytes 0]).
Proof.
  intros Hcd Hud Htype Hlen Hctx.
  pose proof (instance_of_wIndex_nonneg (wIndex req)) as Hpos.
  unfold USBD_CDC_Setup. run. rewrite Hcd, Htype, Z.eqb_refl, Hlen.
  unfold truthy. cbn [Z.eqb negb]. run. rewrite Hud. run.
  rewrite (index_lookup _ _ _ _ Hpos Hctx). reflexivity.
Qed.

Lemma run_EP0_RxReady_pending
    (w : World) (h : USBD_CDC_HandleTypeDef) (fops : USBD_CDC_ItfTypeDef)
    (c : Z) :
  pClassData (pdev w) = Some h ->
  pUserData (pdev w) = Some fops ->
  CmdOpCode h <> 0xFF ->
  0 <= ctrlInst h ->
  ctxPointers w !! Z.to_nat (ctrlInst h) = Some c ->
  USBD_CDC_EP0_RxReady w =
  Some (USBD_OK,
        after w (set_CmdOpCode 0xFF h)
          [Itf_Control c (CmdOpCode h) hcdc_data (CmdLength h)]).
Proof.
  intros Hcd Hud Hop Hpos Hctx.
  unfold USBD_CDC_EP0_RxReady. run. rewrite Hcd, Hud.
  rewrite bool_decide_eq_true_2 by (eexists; reflexivity).
  destruct (Z.eqb_spec (CmdOpCode h) 0xFF); [contradiction |].
  run. rewrite (index_lookup _ _ _ _ Hpos Hctx). run. rewrite Hcd.
  reflexivity.
Qed.

Lemma run_EP0_RxReady_none
    (w : World) (h : USBD_CDC_HandleTypeDef) :
  pClassData (pdev w) = Some h ->
  CmdOpCode h = 0xFF ->
  USBD_CDC_EP0_RxReady w = Some (USBD_OK, w).
Proof.
  intros Hcd Hop. unfold USBD_CDC_EP0_RxReady. run. rewrite Hcd, Hop.
  cbn [Z.eqb Pos.eqb negb]. rewrite andb_false_r. reflexivity.
Qed.

Lemma run_DeInit_configured
    (w : World) (h : USBD_CDC_HandleTypeDef) (fops : USBD_CDC_ItfTypeDef)
    (cfgidx c0 c1 : Z) :
  pClassData (pdev w) = Some h ->
  pUserData (pdev w) = Some fops ->
  ctxPointers w !! 0%nat = Some c0 ->
  ctxPointers w !! 1%nat = Some c1 ->
  USBD_CDC_DeInit cfgidx w =
  Some (0,
        released w
          (six_endpoints_closed ++ [Itf_DeInit c0; Itf_DeInit c1; USBD_free])).
Proof.
  intros Hcd Hud Hc0 Hc1.
  unfold USBD_CDC_DeInit, six_endpoints_closed, released. run.
  rewrite Hcd. run. rewrite Hud. run.
  rewrite (index_lookup _ 0 _ _ ltac:(reflexivity) Hc0). run.
  rewrite (index_lookup _ 1 _ _ ltac:(discriminate) Hc1). run.
  repeat rewrite <- app_assoc. reflexivity.
Qed.

Lemma run_DeInit_unconfigured (w : World) (cfgidx : Z) :
  pClassData (pdev w) = None ->
  USBD_CDC_DeInit cfgidx w = Some (0, called w six_endpoints_closed).
Proof.
  intros Hcd.
  unfold USBD_CDC_DeInit, six_endpoints_closed, called. run.
  rewrite Hcd. run. repeat rewrite <- app_assoc. reflexivity.
Qed.

End Steps.

Section Further.

Context `{Constants}.

Lemma routed_in (instance : Z) :
  endpoints_routed -> instance = 0 \/ instance = 1 ->
  instance_of_epnum (bulk_in_ep instance) = instance.
Proof.
  intros (Hi0 & _ & Hi1 & _) [-> | ->]; [exact Hi0 | exact Hi1].
Qed.

Lemma routed_out (instance : Z) :
  endpoints_routed -> instance = 0 \/ instance = 1 ->
  instance_of_epnum (bulk_out_ep instance) = instance.
Proof.
  intros (_ & Ho0 & _ & Ho1) [-> | ->]; [exact Ho0 | exact Ho1].
Qed.

(** *** Transmission *)

(** X1.  USBD_CDC_DataIn on a configured device with callbacks registered
    returns USBD_OK, stores 0 in TxState of the instance the endpoint
    number belongs to and in no other entry, and makes one call,
    TxComplete with the context of that instance.  It does so whatever
    TxState held: a completion for an idle instance is passed on as
    well. *)
Theorem DataIn_marks_idle_and_notifies
    (w : World) (h : USBD_CDC_HandleTypeDef) (fops : USBD_CDC_ItfTypeDef)
    (epnum st c : Z) :
  pClassData (pdev w) = Some h ->
  pUserData (pdev w) = Some fops ->
  TxState h !! Z.to_nat (instance_of_epnum epnum) = Some st ->
  ctxPointers w !! Z.to_nat (instance_of_epnum epnum) = Some c ->
  exists h',
    USBD_CDC_DataIn epnum w = Some (USBD_OK, after w h' [Itf_TxComplete c]) /\
    TxState h' !! Z.to_nat (instance_of_epnum epnum) = Some 0 /\
    (forall j : nat, j <> Z.to_nat (instance_of_epnum epnum) ->
       TxState h' !! j = TxState h !! j) /\
    h' = set_TxState (TxState h') h.
Proof.
  intros Hcd Hud Hst Hctx. eexists. split.
  - exact (run_DataIn w h fops epnum st c Hcd Hud Hst Hctx).
  - cbn [TxState set_TxState]. split; [| split].
    + apply list_lookup_insert_eq. apply lookup_lt_Some in Hst. exact Hst.
    + intros j Hj. apply list_lookup_insert_ne. congruence.
    + reflexivity.
Qed.

(** X2.  On a configured device that follows the addressing convention, for
    an idle instance 0 or 1: a second USBD_CDC_TransmitPacket straight after
    an accepted one returns USBD_BUSY and submits nothing; once
    USBD_CDC_DataIn has run for the bulk-IN endpoint of that instance, the
    next USBD_CDC_TransmitPacket is accepted and submits the same buffer
    again. *)
Theorem transmit_busy_until_DataIn
    (w : World) (h : USBD_CDC_HandleTypeDef) (fops : USBD_CDC_ItfTypeDef)
    (instance buf len c : Z) :
  endpoints_routed ->
  pClassData (pdev w) = Some h ->
  pUserData (pdev w) = Some fops ->
  instance = 0 \/ instance = 1 ->
  TxState h !! Z.to_nat instance = Some 0 ->
  TxBuffer h !! Z.to_nat instance = Some buf ->
  TxLength h !! Z.to_nat instance = Some len ->
  ctxPointers w !! Z.to_nat instance = Some c ->
  let busy := set_TxState (<[Z.to_nat instance := 1]> (TxState h)) h in
  let sent := USBD_LL_Transmit (bulk_in_ep instance) buf len in
  (USBD_CDC_TransmitPacket instance ;; USBD_CDC_TransmitPacket instance) w =
  Some (USBD_BUSY, after w busy [sent]) /\
  (USBD_CDC_TransmitPacket instance ;;
   USBD_CDC_DataIn (bulk_in_ep instance) ;;
   USBD_CDC_TransmitPacket instance) w =
  Some (USBD_OK, after w busy [sent; Itf_TxComplete c; sent]).
Proof.
  intros Hroute Hcd Hud Hinst Hst Hbuf Hlen Hctx busy sent.
  assert (0 <= instance) as Hpos by lia.
  pose proof (lookup_lt_Some _ _ _ Hst) as Hlt.
  pose proof (routed_in instance Hroute Hinst) as Hep.
  pose proof (run_TransmitPacket_idle w h instance buf len
                Hcd Hpos Hst Hbuf Hlen) as Hfirst.
  fold busy sent in Hfirst.
  assert (TxState busy !! Z.to_nat instance = Some 1) as Hbusy
    by (apply list_lookup_insert_eq; exact Hlt).
  split.
  - rewrite (bind_run _ _ _ _ _ Hfirst).
    exact (run_TransmitPacket_busy (after w busy [sent]) busy instance 1
             eq_refl Hpos Hbusy ltac:(discriminate)).
  - rewrite (bind_run _ _ _ _ _ Hfirst).
    assert (USBD_CDC_DataIn (bulk_in_ep instance) (after w busy [sent]) =
            Some (USBD_OK,
                  after w (set_TxState (<[Z.to_nat instance := 0]> (TxState h)) h)
                    [sent; Itf_TxComplete c])) as Hdone.
    { rewrite (run_DataIn (after w busy [sent]) busy fops
                 (bulk_in_ep instance) 1 c eq_refl Hud);
        rewrite ?Hep; try assumption.
      rewrite after_after. cbn [TxState busy set_TxState].
      rewrite list_insert_insert_eq. reflexivity. }
    rewrite (bind_run _ _ _ _ _ Hdone).
    rewrite (run_TransmitPacket_idle
               (after w (set_TxState (<[Z.to_nat instance := 0]> (TxState h)) h)
                  [sent; Itf_TxComplete c])
               (set_TxState (<[Z.to_nat instance := 0]> (TxState h)) h)
               instance buf len eq_refl Hpos);
      try assumption;
      [| cbn [TxState set_TxState]; apply list_lookup_insert_eq; exact Hlt].
    rewrite after_after. cbn [TxState set_TxState].
    rewrite list_insert_insert_eq. reflexivity.
Qed.

(** X3.  The transfer states of the two instances are independent: a
    completion on the bulk-IN endpoint of one instance leaves the other
    instance busy, and a USBD_CDC_TransmitPacket for that other instance
    still returns USBD_BUSY. *)
Theorem DataIn_releases_one_instance
    (w : World) (h : USBD_CDC_HandleTypeDef) (fops : USBD_CDC_ItfTypeDef)
    (done other st busy c : Z) :
  endpoints_routed ->
  pClassData (pdev w) = Some h ->
  pUserData (pdev w) = Some fops ->
  done = 0 \/ done = 1 ->
  other = 0 \/ other = 1 ->
  done <> other ->
  TxState h !! Z.to_nat done = Some st ->
  TxState h !! Z.to_nat other = Some busy ->
  busy <> 0 ->
  ctxPointers w !! Z.to_nat done = Some c ->
  (USBD_CDC_DataIn (bulk_in_ep done) ;; USBD_CDC_TransmitPacket other) w =
  Some (USBD_BUSY,
        after w (set_TxState (<[Z.to_nat done := 0]> (TxState h)) h)
          [Itf_TxComplete c]).
Proof.
  intros Hroute Hcd Hud Hdone Hother Hne Hst Hbusy Hnz Hctx.
  pose proof (routed_in done Hroute Hdone) as Hep.
  assert (USBD_CDC_DataIn (bulk_in_ep done) w =
          Some (USBD_OK,
                after w (set_TxState (<[Z.to_nat done := 0]> (TxState h)) h)
                  [Itf_TxComplete c])) as Hrun.
  { rewrite (run_DataIn w h fops (bulk_in_ep done) st c Hcd Hud);
      rewrite ?Hep; try assumption. reflexivity. }
  rewrite (bind_run _ _ _ _ _ Hrun).
  apply (run_TransmitPacket_busy _
           (set_TxState (<[Z.to_nat done := 0]> (TxState h)) h) other busy);
    [reflexivity | lia | | exact Hnz].
  cbn [TxState set_TxState]. rewrite list_lookup_insert_ne by lia.
  exact Hbusy.
Qed.

(** *** Before configuration and outside the arrays *)

(** X4.  While no class handle is allocated (pClassData NULL),
    USBD_CDC_DataIn, USBD_CDC_TransmitPacket and USBD_CDC_ReceivePacket
    return USBD_FAIL for every argument and change nothing: no store, no
    call. *)
Theorem unconfigured_returns_FAIL (w : World) (epnum instance : Z) :
  pClassData (pdev w) = None ->
  USBD_CDC_DataIn epnum w = Some (USBD_FAIL, w) /\
  USBD_CDC_TransmitPacket instance w = Some (USBD_FAIL, w) /\
  USBD_CDC_ReceivePacket instance w = Some (USBD_FAIL, w).
Proof.
  intros Hcd.
  unfold USBD_CDC_DataIn, USBD_CDC_TransmitPacket, USBD_CDC_ReceivePacket.
  run. rewrite Hcd. repeat split.
Qed.

(** X5.  The other entry points dereference the class handle before any
    NULL test, or without one: while pClassData is NULL, USBD_CDC_Setup,
    USBD_CDC_DataOut, USBD_CDC_EP0_RxReady, USBD_CDC_SetTxBuffer and
    USBD_CDC_SetRxBuffer are undefined for every argument. *)
Theorem unconfigured_is_undefined
    (w : World) (req : USBD_SetupReqTypedef) (rx : Z -> Z)
    (epnum instance pbuff len : Z) :
  pClassData (pdev w) = None ->
  USBD_CDC_Setup req w = None /\
  USBD_CDC_DataOut rx epnum w = None /\
  USBD_CDC_EP0_RxReady w = None /\
  USBD_CDC_SetTxBuffer instance pbuff len w = None /\
  USBD_CDC_SetRxBuffer instance pbuff w = None.
Proof.
  intros Hcd.
  unfold USBD_CDC_Setup, USBD_CDC_DataOut, USBD_CDC_EP0_RxReady,
    USBD_CDC_SetTxBuffer, USBD_CDC_SetRxBuffer.
  run. rewrite Hcd. repeat split.
Qed.

(** X6.  The instance argument of the application interface is not
    range-checked: on a configured device whose arrays have two entries,
    USBD_CDC_TransmitPacket, USBD_CDC_ReceivePacket, USBD_CDC_SetTxBuffer
    and USBD_CDC_SetRxBuffer with an instance other than 0 and 1 index the
    arrays out of bounds and are undefined. *)
Theorem instance_out_of_range_is_undefined
    (w : World) (h : USBD_CDC_HandleTypeDef) (instance pbuff len : Z) :
  pClassData (pdev w) = Some h ->
  two_instances h ->
  instance < 0 \/ 2 <= instance ->
  USBD_CDC_TransmitPacket instance w = None /\
  USBD_CDC_ReceivePacket instance w = None /\
  USBD_CDC_SetTxBuffer instance pbuff len w = None /\
  USBD_CDC_SetRxBuffer instance pbuff w = None.
Proof.
  intros Hcd (Hrb & Htb & Hrl & Htl & Hts & Hrs) Hout.
  assert (forall A (a : list A) (w0 : World),
            length a = 2%nat -> index a instance w0 = None) as Hindex.
  { intros A a w0 Hlen. unfold index.
    destruct (Z.leb_spec 0 instance); [| reflexivity].
    rewrite (proj2 (lookup_ge_None a (Z.to_nat instance))) by lia.
    reflexivity. }
  assert (forall A (a : list A) (v : A) (w0 : World),
            length a = 2%nat -> assign a instance v w0 = None) as Hassign.
  { intros A a v w0 Hlen. unfold assign. rewrite Hlen.
    destruct (Z.leb_spec 0 instance); [| reflexivity].
    destruct (Z.ltb_spec instance (Z.of_nat 2)); [lia | reflexivity]. }
  unfold USBD_CDC_TransmitPacket, USBD_CDC_ReceivePacket,
    USBD_CDC_SetTxBuffer, USBD_CDC_SetRxBuffer.
  run. rewrite Hcd.
  rewrite (Hindex _ (TxState h) w Hts), (Hindex _ (RxBuffer h) w Hrb),
    (Hassign _ (TxBuffer h) pbuff w Htb), (Hassign _ (RxBuffer h) pbuff w Hrb).
  repeat split.
Qed.

(** *** Buffers *)

(** X7.  What USBD_CDC_SetTxBuffer stores is what the next accepted
    USBD_CDC_TransmitPacket of that instance submits: the pair goes to
    USBD_LL_Transmit on the bulk-IN endpoint of the instance.  The class
    handle afterwards is the old one with three stores, TxBuffer, TxLength
    and TxState at the index of the instance: the entries of the other
    instance and every other field are as they were. *)
Theorem SetTxBuffer_then_TransmitPacket
    (w : World) (h : USBD_CDC_HandleTypeDef) (instance pbuff len : Z) :
  pClassData (pdev w) = Some h ->
  two_instances h ->
  instance = 0 \/ instance = 1 ->
  TxState h !! Z.to_nat instance = Some 0 ->
  let h' :=
    set_TxState (<[Z.to_nat instance := 1]> (TxState h))
      (set_TxLength (<[Z.to_nat instance := len]> (TxLength h))
         (set_TxBuffer (<[Z.to_nat instance := pbuff]> (TxBuffer h)) h)) in
  (USBD_CDC_SetTxBuffer instance pbuff len ;;
   USBD_CDC_TransmitPacket instance) w =
  Some (USBD_OK,
        after w h' [USBD_LL_Transmit (bulk_in_ep instance) pbuff len]) /\
  (forall j : nat, j <> Z.to_nat instance ->
     TxBuffer h' !! j = TxBuffer h !! j /\
     TxLength h' !! j = TxLength h !! j /\
     TxState h' !! j = TxState h !! j) /\
  CmdOpCode h' = CmdOpCode h /\ CmdLength h' = CmdLength h /\
  ctrlInst h' = ctrlInst h /\ RxBuffer h' = RxBuffer h /\
  RxLength h' = RxLength h /\ RxState h' = RxState h.
Proof.
  intros Hcd (Hrb & Htb & Hrl & Htl & Hts & Hrs) Hinst Hst h'.
  assert (0 <= instance < 2) as Hrange by lia.
  pose proof (run_SetTxBuffer w h instance pbuff len Hcd
                ltac:(rewrite Htb; lia) ltac:(rewrite Htl; lia)) as Hset.
  split; [| split; [| repeat apply conj; reflexivity]].
  - rewrite (bind_run _ _ _ _ _ Hset).
    set (h1 := set_TxLength (<[Z.to_nat instance := len]> (TxLength h))
                 (set_TxBuffer (<[Z.to_nat instance := pbuff]> (TxBuffer h)) h))
      in *.
    assert (TxBuffer h1 !! Z.to_nat instance = Some pbuff) as Hb1
      by (apply list_lookup_insert_eq; lia).
    assert (TxLength h1 !! Z.to_nat instance = Some len) as Hl1
      by (apply list_lookup_insert_eq; lia).
    rewrite (run_TransmitPacket_idle (after w h1 []) h1 instance pbuff len
               eq_refl ltac:(lia) Hst Hb1 Hl1).
    rewrite after_after. reflexivity.
  - intros j Hj. cbn [h' TxBuffer TxLength TxState set_TxState set_TxLength
                      set_TxBuffer].
    repeat apply conj; apply list_lookup_insert_ne; congruence.
Qed.

(** X8.  On a configured device that follows the addressing convention,
    the buffer USBD_CDC_SetRxBuffer stores for an instance is the one
    USBD_CDC_ReceivePacket arms on the bulk-OUT endpoint of that instance,
    and the one USBD_CDC_DataOut for that endpoint hands to Receive,
    together with the context of the same instance. *)
Theorem armed_buffer_is_delivered
    (w : World) (h : USBD_CDC_HandleTypeDef) (fops : USBD_CDC_ItfTypeDef)
    (rx : Z -> Z) (instance pbuff c : Z) :
  endpoints_routed ->
  pClassData (pdev w) = Some h ->
  pUserData (pdev w) = Some fops ->
  two_instances h ->
  instance = 0 \/ instance = 1 ->
  ctxPointers w !! Z.to_nat instance = Some c ->
  let ep := bulk_out_ep instance in
  exists h',
    (USBD_CDC_SetRxBuffer instance pbuff ;;
     USBD_CDC_ReceivePacket instance ;;
     USBD_CDC_DataOut rx ep) w =
    Some (USBD_OK,
          after w h'
            [USBD_LL_PrepareReceive ep pbuff
               (out_packet_size (dev_speed (pdev w)));
             Itf_Receive c pbuff (rx ep)]) /\
    RxBuffer h' = <[Z.to_nat instance := pbuff]> (RxBuffer h) /\
    RxLength h' =
    <[Z.to_nat instance := Receive fops c pbuff (rx ep)]> (RxLength h).
Proof.
  intros Hroute Hcd Hud (Hrb & Htb & Hrl & Htl & Hts & Hrs) Hinst Hctx ep.
  assert (0 <= instance < 2) as Hrange by lia.
  pose proof (routed_out instance Hroute Hinst) as Hep. fold ep in Hep.
  pose proof (run_SetRxBuffer w h instance pbuff Hcd
                ltac:(rewrite Hrb; lia)) as Hset.
  set (h1 := set_RxBuffer (<[Z.to_nat instance := pbuff]> (RxBuffer h)) h) in *.
  assert (RxBuffer h1 !! Z.to_nat instance = Some pbuff) as Hb1
    by (apply list_lookup_insert_eq; lia).
  destruct (lookup_lt_is_Some_2 (RxLength h) (Z.to_nat instance)
              ltac:(rewrite Hrl; lia)) as [old Hold].
  exists (set_RxLength
            (<[Z.to_nat instance := Receive fops c pbuff (rx ep)]> (RxLength h))
            h1).
  split; [| split; reflexivity].
  rewrite (bind_run _ _ _ _ _ Hset).
  rewrite (bind_run _ _ _ _ _
             (run_ReceivePacket (after w h1 []) h1 instance pbuff eq_refl
                ltac:(lia) Hb1)).
  rewrite called_after.
  rewrite (run_DataOut (after w h1 _) h1 fops rx ep c pbuff old eq_refl Hud);
    rewrite ?Hep; try assumption.
  rewrite after_after. reflexivity.
Qed.

(** *** The shared control staging *)

(** X9.  A class request with wLength 0 is passed on at once, whatever its
    direction bit: USBD_CDC_Setup makes one call, Control with the context
    of the resolved instance, bRequest, the bytes of the request itself and
    length 0.  Nothing is staged, so with no opcode pending before, a
    USBD_CDC_EP0_RxReady after it calls nothing. *)
Theorem class_setup_without_data
    (w : World) (h : USBD_CDC_HandleTypeDef) (fops : USBD_CDC_ItfTypeDef)
    (req : USBD_SetupReqTypedef) (c : Z) :
  pClassData (pdev w) = Some h ->
  pUserData (pdev w) = Some fops ->
  Z.land (bmRequest req) USB_REQ_TYPE_MASK = USB_REQ_TYPE_CLASS ->
  wLength req = 0 ->
  ctxPointers w !! Z.to_nat (instance_of_wIndex (wIndex req)) = Some c ->
  let w1 :=
    after w (set_ctrlInst (instance_of_wIndex (wIndex req)) h)
      [Itf_Control c (bRequest req) req_bytes 0] in
  USBD_CDC_Setup req w = Some (USBD_OK, w1) /\
  (CmdOpCode h = 0xFF ->
   (USBD_CDC_Setup req ;; USBD_CDC_EP0_RxReady) w = Some (USBD_OK, w1)).
Proof.
  intros Hcd Hud Htype Hlen Hctx w1.
  pose proof (run_Setup_no_data w h fops req c Hcd Hud Htype Hlen Hctx)
    as Hsetup.
  split; [exact Hsetup |].
  intros Hop. rewrite (bind_run _ _ _ _ _ Hsetup).
  exact (run_EP0_RxReady_none w1 _ eq_refl Hop).
Qed.

(** X10.  The staging context is shared by both instances and the last
    staging setup packet wins: after two of them with no
    USBD_CDC_EP0_RxReady in between, the event delivers the second request
    only (its opcode, its converted length, the context of its instance);
    the first request is never delivered. *)
Theorem last_staging_setup_wins
    (w : World) (h : USBD_CDC_HandleTypeDef) (fops : USBD_CDC_ItfTypeDef)
    (first second : USBD_SetupReqTypedef) (c : Z) :
  pClassData (pdev w) = Some h ->
  pUserData (pdev w) = Some fops ->
  stages_data first = true ->
  stages_data second = true ->
  bRequest second <> 0xFF ->
  ctxPointers w !! Z.to_nat (instance_of_wIndex (wIndex second)) = Some c ->
  (USBD_CDC_Setup first ;; USBD_CDC_Setup second ;; USBD_CDC_EP0_RxReady) w =
  Some (USBD_OK,
        after w
          (set_CmdOpCode 0xFF
             (set_CmdLength (CmdLength_conv (wLength second))
                (set_ctrlInst (instance_of_wIndex (wIndex second)) h)))
          [USBD_CtlPrepareRx hcdc_data (wLength first);
           USBD_CtlPrepareRx hcdc_data (wLength second);
           Itf_Control c (bRequest second) hcdc_data
             (CmdLength_conv (wLength second))]).
Proof.
  intros Hcd Hud Hst1 Hst2 Hop Hctx.
  rewrite (bind_run _ _ _ _ _ (run_Setup_staging w h first Hcd Hst1)).
  rewrite (bind_run _ _ _ _ _
             (run_Setup_staging (after w _ _) _ second eq_refl Hst2)).
  rewrite after_after.
  match goal with
  | |- USBD_CDC_EP0_RxReady (after w ?h2 ?evs) = _ =>
      rewrite (run_EP0_RxReady_pending (after w h2 evs) h2 fops c eq_refl Hud
                 Hop (instance_of_wIndex_nonneg _) Hctx)
  end.
  rewrite after_after. reflexivity.
Qed.

(** X11.  USBD_CDC_Setup overwrites ctrlInst for every setup packet, so a
    packet that is only recorded (neither a class request nor a standard
    GET_INTERFACE), arriving between a staging setup packet and its
    USBD_CDC_EP0_RxReady, redirects the delivery: Control is called with the
    staged opcode and length but with the context of the instance of the
    later packet. *)
Theorem recorded_setup_redirects_delivery
    (w : World) (h : USBD_CDC_HandleTypeDef) (fops : USBD_CDC_ItfTypeDef)
    (staged later : USBD_SetupReqTypedef) (c : Z) :
  pClassData (pdev w) = Some h ->
  pUserData (pdev w) = Some fops ->
  stages_data staged = true ->
  only_recorded later ->
  bRequest staged <> 0xFF ->
  ctxPointers w !! Z.to_nat (instance_of_wIndex (wIndex later)) = Some c ->
  (USBD_CDC_Setup staged ;; USBD_CDC_Setup later ;; USBD_CDC_EP0_RxReady) w =
  Some (USBD_OK,
        after w
          (set_CmdOpCode 0xFF
             (set_CmdLength (CmdLength_conv (wLength staged))
                (set_ctrlInst (instance_of_wIndex (wIndex later)) h)))
          [USBD_CtlPrepareRx hcdc_data (wLength staged);
           Itf_Control c (bRequest staged) hcdc_data
             (CmdLength_conv (wLength staged))]).
Proof.
  intros Hcd Hud Hst Hrec Hop Hctx.
  rewrite (bind_run _ _ _ _ _ (run_Setup_staging w h staged Hcd Hst)).
  rewrite (bind_run _ _ _ _ _
             (run_Setup_only_recorded (after w _ _) _ later eq_refl Hrec)).
  rewrite after_after.
  match goal with
  | |- USBD_CDC_EP0_RxReady (after w ?h2 ?evs) = _ =>
      rewrite (run_EP0_RxReady_pending (after w h2 evs) h2 fops c eq_refl Hud
                 Hop (instance_of_wIndex_nonneg _) Hctx)
  end.
  rewrite after_after. reflexivity.
Qed.

(** X12.  The request code 0xFF cannot be staged: it is the value that
    means no opcode is pending.  A staging setup packet with bRequest 0xFF
    arms the control endpoint, but the USBD_CDC_EP0_RxReady that follows
    calls nothing and changes nothing. *)
Theorem request_0xFF_is_never_delivered
    (w : World) (h : USBD_CDC_HandleTypeDef) (req : USBD_SetupReqTypedef) :
  pClassData (pdev w) = Some h ->
  stages_data req = true ->
  bRequest req = 0xFF ->
  (USBD_CDC_Setup req ;; USBD_CDC_EP0_RxReady) w = USBD_CDC_Setup req w /\
  USBD_CDC_Setup req w =
  Some (USBD_OK,
        after w
          (set_CmdLength (CmdLength_conv (wLength req))
             (set_CmdOpCode 0xFF
                (set_ctrlInst (instance_of_wIndex (wIndex req)) h)))
          [USBD_CtlPrepareRx hcdc_data (wLength req)]).
Proof.
  intros Hcd Hst Hop.
  pose proof (run_Setup_staging w h req Hcd Hst) as Hsetup.
  rewrite Hop in Hsetup. split; [| exact Hsetup].
  rewrite (bind_run _ _ _ _ _ Hsetup).
  rewrite Hsetup.
  match goal with
  | |- USBD_CDC_EP0_RxReady (after w ?h1 ?evs) = _ =>
      exact (run_EP0_RxReady_none (after w h1 evs) h1 eq_refl eq_refl)
  end.
Qed.

End Further.

(** *** Further frame rules *)

Lemma preserves_for_each (R : relation World)
    `{!Reflexive R} `{!Transitive R} (range : list Z) (body : Z -> M unit) :
  (forall i, preserves R (body i)) -> preserves R (for_each range body).
Proof.
  intros Hbody. induction range as [| i rest IH]; cbn [for_each].
  - apply preserves_ret; assumption.
  - apply preserves_bind; [assumption | apply Hbody | intros _; exact IH].
Qed.

#[global] Instance keeps_TxState_reflexive : Reflexive keeps_TxState.
Proof. intros w h Hh. exists h. split; [exact Hh | reflexivity]. Qed.

#[global] Instance keeps_TxState_transitive : Transitive keeps_TxState.
Proof.
  intros w1 w2 w3 H12 H23 h Hh.
  destruct (H12 h Hh) as (h2 & Hh2 & E2).
  destruct (H23 h2 Hh2) as (h3 & Hh3 & E3).
  exists h3. split; [exact Hh3 | congruence].
Qed.

Lemma returns_ret {A} (Q : A -> Prop) (a : A) : Q a -> returns Q (ret a).
Proof. intros Ha w a' w' Hrun. injection Hrun as <- <-. exact Ha. Qed.

Lemma returns_bind {A B} (Q : B -> Prop) (m : M A) (k : A -> M B) :
  (forall a, returns Q (k a)) -> returns Q (bind m k).
Proof.
  intros Hk w b w' Hrun. unfold bind in Hrun.
  destruct (m w) as [[a w1] |]; [| discriminate].
  exact (Hk a _ _ _ Hrun).
Qed.

(** [frame] for handlers with a loop. *)
Ltac frame_loops :=
  repeat first
    [ apply preserves_for_each; frame_classes; intros ?
    | progress frame ].

(** The obligations of [keeps_TxState]: a step that leaves the device
    handle alone, or a store to a field of the class handle other than
    TxState. *)
Ltac keeps_TxState_step :=
  intros; unfold keeps_TxState;
  cbn [pdev pClassData set_pClassData];
  let h0 := fresh "h" in
  let Hh0 := fresh "Hh" in
  intros h0 Hh0;
  first [ exists h0; split; [exact Hh0 | reflexivity]
        | eexists; split; [reflexivity |];
          match goal with
          | E : pClassData _ = Some _ |- _ =>
              rewrite E in Hh0; injection Hh0 as <-; reflexivity
          end ].

Section Lifecycle.

Context `{Constants}.

(** *** Tear-down *)

(** X13.  USBD_CDC_DeInit always returns 0 and closes the six endpoints.
    On a configured device it then calls DeInit with the context of
    instance 0 and of instance 1, frees the class handle and sets
    pClassData to NULL; with pClassData NULL it does nothing more.  Run
    twice in a row, the second run therefore only closes the endpoints
    again: no callback and no second free. *)
Theorem DeInit_releases_once
    (w : World) (h : USBD_CDC_HandleTypeDef) (fops : USBD_CDC_ItfTypeDef)
    (cfgidx c0 c1 : Z) :
  pClassData (pdev w) = Some h ->
  pUserData (pdev w) = Some fops ->
  ctxPointers w !! 0%nat = Some c0 ->
  ctxPointers w !! 1%nat = Some c1 ->
  let freed := six_endpoints_closed ++ [Itf_DeInit c0; Itf_DeInit c1; USBD_free] in
  USBD_CDC_DeInit cfgidx w = Some (0, released w freed) /\
  USBD_CDC_DeInit cfgidx (released w freed) =
  Some (0, released w (freed ++ six_endpoints_closed)) /\
  (USBD_CDC_DeInit cfgidx ;; USBD_CDC_DeInit cfgidx) w =
  Some (0, released w (freed ++ six_endpoints_closed)).
Proof.
  intros Hcd Hud Hc0 Hc1 freed.
  pose proof (run_DeInit_configured w h fops cfgidx c0 c1 Hcd Hud Hc0 Hc1)
    as Hfirst.
  fold freed in Hfirst.
  assert (USBD_CDC_DeInit cfgidx (released w freed) =
          Some (0, released w (freed ++ six_endpoints_closed))) as Hsecond.
  { rewrite (run_DeInit_unconfigured (released w freed) cfgidx eq_refl).
    unfold called, released. cbn [pdev ctxPointers trace].
    rewrite <- app_assoc. destruct (pdev w). reflexivity. }
  split; [exact Hfirst | split; [exact Hsecond |]].
  rewrite (bind_run _ _ _ _ _ Hfirst). exact Hsecond.
Qed.

(** X14.  USBD_CDC_DeInit followed by USBD_CDC_Init with a successful
    allocation brings the driver back to its initial state: both return 0,
    TxState and RxState of both instances are 0 whatever they were, the Init
    callback runs once per instance after the DeInit callbacks, and both
    bulk-OUT endpoints are armed again with RxBuffer[0] and RxBuffer[1] of
    the new handle. *)
Theorem DeInit_then_Init_starts_afresh
    (w : World) (h blk : USBD_CDC_HandleTypeDef) (fops : USBD_CDC_ItfTypeDef)
    (cfgidx c0 c1 t0 t1 r0 r1 rx0 rx1 : Z) :
  pClassData (pdev w) = Some h ->
  pUserData (pdev w) = Some fops ->
  ctxPointers w = [c0; c1] ->
  TxState blk = [t0; t1] ->
  RxState blk = [r0; r1] ->
  RxBuffer blk !! 0%nat = Some rx0 ->
  RxBuffer blk !! 1%nat = Some rx1 ->
  (USBD_CDC_DeInit cfgidx ;; USBD_CDC_Init (Some blk) cfgidx) w =
  Some (0,
        {| pdev := set_pClassData (Some (initialised blk)) (pdev w);
           ctxPointers := [Init fops 0 c0; Init fops 1 c1];
           trace := trace w ++
                    six_endpoints_closed ++
                    [Itf_DeInit c0; Itf_DeInit c1; USBD_free] ++
                    six_endpoints_opened (dev_speed (pdev w)) ++
                    [Itf_Init 0; Itf_Init 1;
                     USBD_LL_PrepareReceive CDC_OUT_EP rx0
                       (out_packet_size (dev_speed (pdev w)));
                     USBD_LL_PrepareReceive CDC2_OUT_EP rx1
                       (out_packet_size (dev_speed (pdev w)))] |}) /\
  TxState (initialised blk) = [0; 0] /\
  RxState (initialised blk) = [0; 0].
Proof.
  intros Hcd Hud Hctx Hts Hrs Hrx0 Hrx1.
  split; [| split; reflexivity].
  rewrite (bind_run _ _ _ _ _
             (run_DeInit_configured w h fops cfgidx c0 c1 Hcd Hud
                ltac:(rewrite Hctx; reflexivity)
                ltac:(rewrite Hctx; reflexivity))).
  rewrite (Init_allocated (released w _) blk fops cfgidx c0 c1 t0 t1 r0 r1
             rx0 rx1 Hud Hctx Hts Hrs Hrx0 Hrx1).
  unfold released. cbn [pdev ctxPointers trace dev_speed set_pClassData].
  repeat rewrite <- app_assoc. reflexivity.
Qed.

End Lifecycle.

Section Effects.

Context `{Constants}.

Lemma assign_same_world {A} (a a' : list A) (i : Z) (v : A) (w w' : World) :
  assign a i v w = Some (a', w') -> w' = w.
Proof.
  unfold assign. destruct (_ && _); [| discriminate].
  intros Hrun. injection Hrun as _ <-. reflexivity.
Qed.

(** *** Status codes *)

(** X15.  USBD_CDC_Setup, USBD_CDC_EP0_RxReady, USBD_CDC_DataOut,
    USBD_CDC_SetTxBuffer and USBD_CDC_SetRxBuffer never report a failure:
    whenever they return, they return USBD_OK.  For USBD_CDC_DataOut this
    includes the branch that would return USBD_FAIL: it tests pClassData
    after the handle has been written through, so it cannot be reached. *)
Theorem handlers_return_only_OK :
  (forall req, returns (eq USBD_OK) (USBD_CDC_Setup req)) /\
  returns (eq USBD_OK) USBD_CDC_EP0_RxReady /\
  (forall rx epnum, returns (eq USBD_OK) (USBD_CDC_DataOut rx epnum)) /\
  (forall i b l, returns (eq USBD_OK) (USBD_CDC_SetTxBuffer i b l)) /\
  (forall i b, returns (eq USBD_OK) (USBD_CDC_SetRxBuffer i b)).
Proof.
  repeat apply conj; intros.
  - unfold USBD_CDC_Setup.
    apply returns_bind. intros _. apply returns_bind. intros _.
    apply returns_ret. reflexivity.
  - unfold USBD_CDC_EP0_RxReady.
    apply returns_bind. intros hcdc. apply returns_bind. intros d.
    destruct (_ && _);
      repeat (apply returns_bind; intros ?); apply returns_ret; reflexivity.
  - intros w a w' Hrun. unfold USBD_CDC_DataOut in Hrun. run in Hrun.
    destruct (pClassData (pdev w)) as [h |] eqn:Hcd; [| discriminate].
    destruct (assign (RxLength h) (instance_of_epnum epnum) (rx epnum) w)
      as [[rl w0] |] eqn:Ea; [| discriminate].
    apply assign_same_world in Ea as ->.
    run in Hrun. rewrite Hcd in Hrun. run in Hrun.
    revert Hrun.
    repeat match goal with
           | |- context [match ?x with _ => _ end] =>
               destruct x as [[? ?] |]; try discriminate
           | |- context [match ?x with _ => _ end] =>
               destruct x as [? |]; try discriminate
           end.
    intros Hrun. injection Hrun as <- _. reflexivity.
  - unfold USBD_CDC_SetTxBuffer.
    repeat (apply returns_bind; intros ?). apply returns_ret. reflexivity.
  - unfold USBD_CDC_SetRxBuffer.
    repeat (apply returns_bind; intros ?). apply returns_ret. reflexivity.
Qed.

(** *** Who changes what *)

Lemma handlers_keep_TxState :
  (forall req, preserves keeps_TxState (USBD_CDC_Setup req)) /\
  (forall rx epnum, preserves keeps_TxState (USBD_CDC_DataOut rx epnum)) /\
  preserves keeps_TxState USBD_CDC_EP0_RxReady /\
  (forall i b l, preserves keeps_TxState (USBD_CDC_SetTxBuffer i b l)) /\
  (forall i b, preserves keeps_TxState (USBD_CDC_SetRxBuffer i b)) /\
  (forall i, preserves keeps_TxState (USBD_CDC_ReceivePacket i)) /\
  (forall f, preserves keeps_TxState (USBD_CDC_RegisterInterface f)).
Proof.
  repeat apply conj; intros;
    unfold USBD_CDC_DataOut, USBD_CDC_Setup, USBD_CDC_EP0_RxReady,
      USBD_CDC_ReceivePacket, USBD_CDC_SetTxBuffer, USBD_CDC_SetRxBuffer;
    try (frame; keeps_TxState_step).
  intros w r w' Hrun. destruct f as [f |]; injection Hrun as <- <-.
  - intros h Hh. exists h. split; [exact Hh | reflexivity].
  - reflexivity.
Qed.

(** X16.  TxState is written by USBD_CDC_TransmitPacket and
    USBD_CDC_DataIn only: any sequence of the other requests (setup
    packets, received data, control-data-ready events, buffer settings,
    re-arming, registration) leaves the class handle allocated and TxState
    of both instances as it was.  A busy instance stays busy until its
    completion arrives. *)
Theorem TxState_changes_only_on_transmit_and_completion
    (ops : list dispatch) (w w' : World) :
  forallb (fun op => negb (touches_TxState op)) ops = true ->
  run_all ops w = Some (tt, w') ->
  keeps_TxState w w'.
Proof.
  destruct handlers_keep_TxState
    as (Hsetup & Hout & Hready & Hstx & Hsrx & Hrx & Hreg).
  revert w. induction ops as [| op rest IH]; intros w Hops Hrun.
  - injection Hrun as <-. reflexivity.
  - cbn [forallb] in Hops. apply andb_prop in Hops as [Hop Hrest].
    cbn [run_all] in Hrun. unfold bind in Hrun.
    destruct (run_dispatch op w) as [[r w1] |] eqn:Eop; [| discriminate].
    transitivity w1; [| exact (IH w1 Hrest Hrun)].
    destruct op; cbn [touches_TxState negb] in Hop; try discriminate;
      cbn [run_dispatch] in Eop;
      match goal with
      | E : ?m w = Some (r, w1) |- _ =>
          assert (preserves keeps_TxState m) as Hm by auto;
          exact (Hm _ _ _ E)
      end.
Qed.

(** X17.  Only USBD_CDC_TransmitPacket submits a transmission: no other
    entry point calls USBD_LL_Transmit, in any world and for any argument.
    In particular USBD_CDC_DataIn does not start the next transmission by
    itself. *)
Theorem only_TransmitPacket_transmits :
  (forall alloc cfgidx, emits_only not_Transmit (USBD_CDC_Init alloc cfgidx)) /\
  (forall cfgidx, emits_only not_Transmit (USBD_CDC_DeInit cfgidx)) /\
  (forall req, emits_only not_Transmit (USBD_CDC_Setup req)) /\
  (forall epnum, emits_only not_Transmit (USBD_CDC_DataIn epnum)) /\
  (forall rx epnum, emits_only not_Transmit (USBD_CDC_DataOut rx epnum)) /\
  emits_only not_Transmit USBD_CDC_EP0_RxReady /\
  (forall i, emits_only not_Transmit (USBD_CDC_ReceivePacket i)) /\
  (forall i b l, emits_only not_Transmit (USBD_CDC_SetTxBuffer i b l)) /\
  (forall i b, emits_only not_Transmit (USBD_CDC_SetRxBuffer i b)) /\
  (forall f, emits_only not_Transmit (USBD_CDC_RegisterInterface f)).
Proof.
  repeat apply conj; intros;
    unfold USBD_CDC_Init, USBD_CDC_DeInit, USBD_CDC_DataOut, USBD_CDC_DataIn,
      USBD_CDC_Setup, USBD_CDC_EP0_RxReady, USBD_CDC_ReceivePacket,
      USBD_CDC_SetTxBuffer, USBD_CDC_SetRxBuffer, USBD_CDC_RegisterInterface;
    frame_loops; emits_step.
Qed.

(** X18.  Only USBD_CDC_DeInit gives resources back: no other entry point
    closes an endpoint, frees the class handle or calls the DeInit
    callback.  In particular USBD_CDC_Init closes nothing when the
    allocation fails, and releases nothing when it is run on a device that
    is configured already. *)
Theorem only_DeInit_releases :
  (forall alloc cfgidx, emits_only not_release (USBD_CDC_Init alloc cfgidx)) /\
  (forall req, emits_only not_release (USBD_CDC_Setup req)) /\
  (forall epnum, emits_only not_release (USBD_CDC_DataIn epnum)) /\
  (forall rx epnum, emits_only not_release (USBD_CDC_DataOut rx epnum)) /\
  emits_only not_release USBD_CDC_EP0_RxReady /\
  (forall i, emits_only not_release (USBD_CDC_TransmitPacket i)) /\
  (forall i, emits_only not_release (USBD_CDC_ReceivePacket i)) /\
  (forall i b l, emits_only not_release (USBD_CDC_SetTxBuffer i b l)) /\
  (forall i b, emits_only not_release (USBD_CDC_SetRxBuffer i b)) /\
  (forall f, emits_only not_release (USBD_CDC_RegisterInterface f)).
Proof.
  repeat apply conj; intros;
    unfold USBD_CDC_Init, USBD_CDC_DataOut, USBD_CDC_DataIn,
      USBD_CDC_Setup, USBD_CDC_EP0_RxReady, USBD_CDC_TransmitPacket,
      USBD_CDC_ReceivePacket, USBD_CDC_SetTxBuffer, USBD_CDC_SetRxBuffer,
      USBD_CDC_RegisterInterface;
    frame_loops; emits_step.
Qed.

(** *** The pending opcode, from configuration on *)

(** X19.  If the block the allocator returns holds 0xFF in CmdOpCode, the
    invariant on the pending opcode holds from USBD_CDC_Init on: after any
    sequence of requests served without undefined behaviour, a callback
    table is registered, the class handle is allocated, and CmdOpCode is
    0xFF unless a staging setup packet has arrived since the last
    USBD_CDC_EP0_RxReady. *)
Theorem opcode_invariant_from_Init
    (w : World) (blk : USBD_CDC_HandleTypeDef) (fops : USBD_CDC_ItfTypeDef)
    (cfgidx c0 c1 t0 t1 r0 r1 rx0 rx1 : Z) :
  pUserData (pdev w) = Some fops ->
  ctxPointers w = [c0; c1] ->
  TxState blk = [t0; t1] ->
  RxState blk = [r0; r1] ->
  RxBuffer blk !! 0%nat = Some rx0 ->
  RxBuffer blk !! 1%nat = Some rx1 ->
  CmdOpCode blk = 0xFF ->
  exists w1,
    USBD_CDC_Init (Some blk) cfgidx w = Some (0, w1) /\
    forall (ops : list dispatch) (w' : World),
      run_all ops w1 = Some (tt, w') ->
      opcode_invariant (awaiting_after ops false) w'.
Proof.
  intros Hud Hctx Hts Hrs Hrx0 Hrx1 Hop.
  eexists. split.
  - exact (Init_allocated w blk fops cfgidx c0 c1 t0 t1 r0 r1 rx0 rx1
             Hud Hctx Hts Hrs Hrx0 Hrx1).
  - intros ops w' Hrun.
    eapply (opcode_invariant_run_all ops false); [| exact Hrun].
    split; cbn [pdev pUserData pClassData set_pClassData].
    + rewrite Hud. eexists. reflexivity.
    + exists (initialised blk). split; [reflexivity | intros _; exact Hop].
Qed.

(** *** Without a callback table *)

(** X20.  USBD_CDC_EP0_RxReady is the only entry point that tests
    pUserData.  On a configured device with no callback table registered,
    USBD_CDC_DataIn, USBD_CDC_DataOut and USBD_CDC_DeInit call through the
    NULL table and are undefined for every argument, and so are
    USBD_CDC_Setup for a class request that is not staged and
    USBD_CDC_Init once the allocation has succeeded. *)
Theorem unregistered_is_undefined
    (w : World) (h blk : USBD_CDC_HandleTypeDef) (req : USBD_SetupReqTypedef)
    (rx : Z -> Z) (epnum cfgidx : Z) :
  pClassData (pdev w) = Some h ->
  pUserData (pdev w) = None ->
  USBD_CDC_DataIn epnum w = None /\
  USBD_CDC_DataOut rx epnum w = None /\
  USBD_CDC_DeInit cfgidx w = None /\
  USBD_CDC_Init (Some blk) cfgidx w = None /\
  (Z.land (bmRequest req) USB_REQ_TYPE_MASK = USB_REQ_TYPE_CLASS ->
   stages_data req = false ->
   USBD_CDC_Setup req w = None).
Proof.
  intros Hcd Hud.
  assert (forall A (a : list A) (i : Z) (v : A) (w0 : World),
            assign a i v w0 = None \/ exists a', assign a i v w0 = Some (a', w0))
    as Hassign.
  { intros A a i v w0. unfold assign.
    destruct (_ && _); [right; eexists; reflexivity | left; reflexivity]. }
  repeat apply conj.
  - unfold USBD_CDC_DataIn. run. rewrite Hcd.
    destruct (Hassign _ (TxState h) (instance_of_epnum epnum) 0 w)
      as [-> | [ts ->]]; [reflexivity |].
    run. rewrite Hcd. run. rewrite Hud. reflexivity.
  - unfold USBD_CDC_DataOut. run. rewrite Hcd.
    destruct (Hassign _ (RxLength h) (instance_of_epnum epnum) (rx epnum) w)
      as [-> | [rl ->]]; [reflexivity |].
    run. rewrite Hcd. run. rewrite Hud. reflexivity.
  - unfold USBD_CDC_DeInit. run. rewrite Hcd. run. rewrite Hud. reflexivity.
  - unfold USBD_CDC_Init.
    change (seqZ 0 NUM_CDC_INSTANCES) with [0; 1]. cbn [for_each]. run.
    destruct (dev_speed (pdev w) =? USBD_SPEED_HIGH); run;
      unfold assign;
      destruct ((0 <=? 0) && (0 <? Z.of_nat (length (TxState blk))));
      run; try reflexivity;
      destruct ((0 <=? 0) && (0 <? Z.of_nat (length (RxState blk))));
      run; rewrite ?Hud; reflexivity.
  - intros Htype Hst. unfold stages_data in Hst.
    rewrite Htype, Z.eqb_refl in Hst. cbn [andb] in Hst.
    unfold USBD_CDC_Setup. run. rewrite Hcd, Htype, Z.eqb_refl.
    destruct (truthy (wLength req)); cbn [andb] in Hst.
    + apply negb_false_iff in Hst. rewrite Hst. run. rewrite Hud.
      reflexivity.
    + run. rewrite Hud. reflexivity.
Qed.

End Effects.

(** *** Descriptors *)

Section DescriptorFacts.

Context `{DescriptorConstants}.

(** X21.  Every descriptor accessor reports the size of what it returns:
    the length stored for the caller is the number of bytes behind the
    pointer, and 0 with the NULL pointer of the high-speed accessor; the
    other-speed accessor answers as the full-speed one.  The device
    qualifier table has exactly USB_LEN_DEV_QUALIFIER_DESC bytes and its
    first byte, bLength, is that same length.  This needs the qualifier
    length to be a byte value of at least ten and the configuration table
    to be shorter than 65536 bytes. *)
Theorem descriptor_lengths_match :
  10 <= USB_LEN_DEV_QUALIFIER_DESC < 256 ->
  Z.of_nat (length IADCDCTwoDescriptor) < 65536 ->
  snd USBD_CDC_GetDeviceQualifierDescriptor =
    readable (fst USBD_CDC_GetDeviceQualifierDescriptor) /\
  snd USBD_CDC_GetDeviceQualifierDescriptor = USB_LEN_DEV_QUALIFIER_DESC /\
  USBD_CDC_DeviceQualifierDesc !! 0%nat =
    Some (snd USBD_CDC_GetDeviceQualifierDescriptor) /\
  snd USBD_CDC_GetFSCfgDesc = readable (fst USBD_CDC_GetFSCfgDesc) /\
  snd USBD_CDC_GetHSCfgDesc = readable (fst USBD_CDC_GetHSCfgDesc) /\
  fst USBD_CDC_GetHSCfgDesc = None /\
  USBD_CDC_GetOtherSpeedCfgDesc = USBD_CDC_GetFSCfgDesc.
Proof.
  intros Hlen Hcfg.
  assert (Z.of_nat (length USBD_CDC_DeviceQualifierDesc) =
          USB_LEN_DEV_QUALIFIER_DESC) as Hsize.
  { unfold USBD_CDC_DeviceQualifierDesc.
    rewrite length_app, length_replicate. cbn [length]. lia. }
  assert (snd USBD_CDC_GetDeviceQualifierDescriptor =
          USB_LEN_DEV_QUALIFIER_DESC) as Hreported.
  { cbn [snd USBD_CDC_GetDeviceQualifierDescriptor]. unfold sizeof_u16.
    rewrite Hsize. apply Z.mod_small. lia. }
  repeat apply conj.
  - rewrite Hreported. cbn [fst USBD_CDC_GetDeviceQualifierDescriptor readable].
    symmetry. exact Hsize.
  - exact Hreported.
  - rewrite Hreported. unfold USBD_CDC_DeviceQualifierDesc.
    cbn [app lookup list_lookup]. rewrite Z.mod_small by lia. reflexivity.
  - cbn [fst snd USBD_CDC_GetFSCfgDesc readable]. unfold sizeof_u16.
    apply Z.mod_small. lia.
  - reflexivity.
  - reflexivity.
  - reflexivity.
Qed.

End DescriptorFacts.

(** ** The further statements on the sample board *)

Section Samples.

#[local] Existing Instance sample_board.
#[local] Existing Instance sample_descriptors.

Lemma sample_board_routed : endpoints_routed.
Proof. repeat split. Qed.

Lemma sample_hcdc_two_instances : two_instances sample_hcdc.
Proof. repeat split. Qed.

Lemma DataIn_marks_idle_and_notifies_witness :
  (instance_of_epnum 0x85 = 1 /\
   TxState sample_hcdc !! Z.to_nat 1 = Some 1) /\
  exists h',
    USBD_CDC_DataIn 0x85 sample_world =
    Some (0, after sample_world h' [Itf_TxComplete 101]) /\
    TxState h' !! Z.to_nat 1 = Some 0.
Proof.
  split; [split; reflexivity |].
  destruct (DataIn_marks_idle_and_notifies (H:=sample_board) sample_world sample_hcdc
              sample_fops 0x85 1 101 eq_refl eq_refl eq_refl eq_refl)
    as (h' & Hrun & Hidle & _).
  exists h'. split; [exact Hrun | exact Hidle].
Defined.

Lemma transmit_busy_until_DataIn_witness :
  (endpoints_routed /\ TxState sample_hcdc !! Z.to_nat 0 = Some 0) /\
  (USBD_CDC_TransmitPacket 0 ;; USBD_CDC_TransmitPacket 0) sample_world =
  Some (1,
        after sample_world (set_TxState [1; 1] sample_hcdc)
          [USBD_LL_Transmit 0x81 0x3000 5]) /\
  (USBD_CDC_TransmitPacket 0 ;; USBD_CDC_DataIn 0x81 ;;
   USBD_CDC_TransmitPacket 0) sample_world =
  Some (0,
        after sample_world (set_TxState [1; 1] sample_hcdc)
          [USBD_LL_Transmit 0x81 0x3000 5; Itf_TxComplete 100;
           USBD_LL_Transmit 0x81 0x3000 5]).
Proof.
  split; [split; [exact sample_board_routed | reflexivity] |].
  exact (transmit_busy_until_DataIn (H:=sample_board) sample_world sample_hcdc sample_fops
           0 0x3000 5 100 sample_board_routed eq_refl eq_refl
           (or_introl eq_refl) eq_refl eq_refl eq_refl eq_refl).
Defined.

Lemma DataIn_releases_one_instance_witness :
  (endpoints_routed /\ 0 <> 1 /\
   TxState sample_hcdc !! Z.to_nat 1 = Some 1 /\ 1 <> 0) /\
  (USBD_CDC_DataIn 0x81 ;; USBD_CDC_TransmitPacket 1) sample_world =
  Some (1,
        after sample_world (set_TxState [0; 1] sample_hcdc)
          [Itf_TxComplete 100]).
Proof.
  split; [repeat split; try exact sample_board_routed; discriminate |].
  apply (DataIn_releases_one_instance (H:=sample_board) sample_world sample_hcdc sample_fops
           0 1 0 1 100 sample_board_routed eq_refl eq_refl
           (or_introl eq_refl) (or_intror eq_refl));
    try reflexivity; discriminate.
Defined.

Lemma unconfigured_returns_FAIL_witness :
  pClassData (pdev sample_unconfigured) = None /\
  USBD_CDC_DataIn 0x81 sample_unconfigured = Some (2, sample_unconfigured) /\
  USBD_CDC_TransmitPacket 0 sample_unconfigured =
  Some (2, sample_unconfigured) /\
  USBD_CDC_ReceivePacket 0 sample_unconfigured =
  Some (2, sample_unconfigured).
Proof.
  split; [reflexivity |].
  exact (unconfigured_returns_FAIL (H:=sample_board) sample_unconfigured 0x81 0 eq_refl).
Defined.

Lemma unconfigured_is_undefined_witness :
  pClassData (pdev sample_unconfigured) = None /\
  USBD_CDC_Setup sample_out_req sample_unconfigured = None /\
  USBD_CDC_DataOut (fun _ => 12) 0x01 sample_unconfigured = None /\
  USBD_CDC_EP0_RxReady sample_unconfigured = None /\
  USBD_CDC_SetTxBuffer 0 0x4000 3 sample_unconfigured = None /\
  USBD_CDC_SetRxBuffer 0 0x5000 sample_unconfigured = None.
Proof.
  split; [reflexivity |].
  exact (unconfigured_is_undefined (H:=sample_board) sample_unconfigured sample_out_req
           (fun _ => 12) 0x01 0 0x4000 3 eq_refl).
Defined.

Lemma instance_out_of_range_is_undefined_witness :
  (two_instances sample_hcdc /\ 2 <= 2) /\
  USBD_CDC_TransmitPacket 2 sample_world = None /\
  USBD_CDC_ReceivePacket 2 sample_world = None /\
  USBD_CDC_SetTxBuffer 2 0x4000 3 sample_world = None /\
  USBD_CDC_SetRxBuffer 2 0x5000 sample_world = None.
Proof.
  split; [split; [exact sample_hcdc_two_instances | lia] |].
  apply (instance_out_of_range_is_undefined (H:=sample_board) sample_world sample_hcdc
           2 0x4000 3 eq_refl sample_hcdc_two_instances).
  right. lia.
Defined.

Lemma SetTxBuffer_then_TransmitPacket_witness :
  (two_instances sample_hcdc /\
   TxState sample_hcdc !! Z.to_nat 0 = Some 0) /\
  (USBD_CDC_SetTxBuffer 0 0x4000 3 ;; USBD_CDC_TransmitPacket 0)
    sample_world =
  Some (0,
        after sample_world
          {| CmdOpCode := 0xFF; CmdLength := 0;
             RxBuffer := [0x2000; 0x2040]; TxBuffer := [0x4000; 0x3040];
             RxLength := [0; 0]; TxLength := [3; 9];
             TxState := [1; 1]; RxState := [0; 0]; ctrlInst := 0 |}
          [USBD_LL_Transmit 0x81 0x4000 3]).
Proof.
  split; [split; [exact sample_hcdc_two_instances | reflexivity] |].
  exact (proj1 (SetTxBuffer_then_TransmitPacket (H:=sample_board)
                  sample_world sample_hcdc 0 0x4000 3 eq_refl
                  sample_hcdc_two_instances (or_introl eq_refl) eq_refl)).
Defined.

Lemma armed_buffer_is_delivered_witness :
  (endpoints_routed /\ two_instances sample_hcdc) /\
  exists h',
    (USBD_CDC_SetRxBuffer 1 0x5000 ;; USBD_CDC_ReceivePacket 1 ;;
     USBD_CDC_DataOut (fun _ => 12) 0x05) sample_world =
    Some (0,
          after sample_world h'
            [USBD_LL_PrepareReceive 0x05 0x5000 64;
             Itf_Receive 101 0x5000 12]) /\
    RxBuffer h' = [0x2000; 0x5000] /\
    RxLength h' = [0; 12].
Proof.
  split; [split; [exact sample_board_routed | exact sample_hcdc_two_instances] |].
  exact (armed_buffer_is_delivered (H:=sample_board) sample_world sample_hcdc sample_fops
           (fun _ => 12) 1 0x5000 101 sample_board_routed eq_refl eq_refl
           sample_hcdc_two_instances (or_intror eq_refl) eq_refl).
Defined.

Lemma class_setup_without_data_witness :
  (Z.land (bmRequest sample_no_data_req) USB_REQ_TYPE_MASK = USB_REQ_TYPE_CLASS /\
   wLength sample_no_data_req = 0 /\ CmdOpCode sample_hcdc = 0xFF) /\
  USBD_CDC_Setup sample_no_data_req sample_world =
  Some (0, after sample_world sample_hcdc [Itf_Control 100 0x22 req_bytes 0]) /\
  (USBD_CDC_Setup sample_no_data_req ;; USBD_CDC_EP0_RxReady) sample_world =
  Some (0, after sample_world sample_hcdc [Itf_Control 100 0x22 req_bytes 0]).
Proof.
  split; [repeat split |].
  destruct (class_setup_without_data (H:=sample_board) sample_world sample_hcdc sample_fops
              sample_no_data_req 100 eq_refl eq_refl eq_refl eq_refl eq_refl)
    as [Hsetup Hready].
  split; [exact Hsetup | exact (Hready eq_refl)].
Defined.

Lemma last_staging_setup_wins_witness :
  (stages_data sample_out_req = true /\ stages_data sample_out_req_1 = true /\
   bRequest sample_out_req_1 <> 0xFF) /\
  (USBD_CDC_Setup sample_out_req ;; USBD_CDC_Setup sample_out_req_1 ;;
   USBD_CDC_EP0_RxReady) sample_world =
  Some (0,
        after sample_world
          (set_CmdLength 7 (set_ctrlInst 1 sample_hcdc))
          [USBD_CtlPrepareRx hcdc_data 8; USBD_CtlPrepareRx hcdc_data 7;
           Itf_Control 101 0x20 hcdc_data 7]).
Proof.
  split; [repeat split; discriminate |].
  apply (last_staging_setup_wins (H:=sample_board) sample_world sample_hcdc sample_fops
           sample_out_req sample_out_req_1 101);
    try reflexivity. discriminate.
Defined.

Lemma recorded_setup_redirects_delivery_witness :
  (stages_data sample_out_req = true /\ only_recorded sample_set_interface /\
   instance_of_wIndex (wIndex sample_out_req) = 0 /\
   instance_of_wIndex (wIndex sample_set_interface) = 1) /\
  (USBD_CDC_Setup sample_out_req ;; USBD_CDC_Setup sample_set_interface ;;
   USBD_CDC_EP0_RxReady) sample_world =
  Some (0,
        after sample_world
          (set_CmdLength 8 (set_ctrlInst 1 sample_hcdc))
          [USBD_CtlPrepareRx hcdc_data 8; Itf_Control 101 0x20 hcdc_data 8]).
Proof.
  assert (only_recorded sample_set_interface) as Hrec.
  { split; [discriminate | intros [_ Hg]; discriminate Hg]. }
  split; [repeat split; try exact (proj1 Hrec); exact (proj2 Hrec) |].
  apply (recorded_setup_redirects_delivery (H:=sample_board) sample_world sample_hcdc
           sample_fops sample_out_req sample_set_interface 101);
    first [reflexivity | exact Hrec | discriminate].
Defined.

Lemma request_0xFF_is_never_delivered_witness :
  (stages_data sample_ff_req = true /\ bRequest sample_ff_req = 0xFF) /\
  (USBD_CDC_Setup sample_ff_req ;; USBD_CDC_EP0_RxReady) sample_world =
  USBD_CDC_Setup sample_ff_req sample_world /\
  USBD_CDC_Setup sample_ff_req sample_world =
  Some (0,
        after sample_world (set_CmdLength 4 sample_hcdc)
          [USBD_CtlPrepareRx hcdc_data 4]).
Proof.
  split; [split; reflexivity |].
  exact (request_0xFF_is_never_delivered (H:=sample_board) sample_world sample_hcdc
           sample_ff_req eq_refl eq_refl eq_refl).
Defined.

Lemma DeInit_releases_once_witness :
  (pClassData (pdev sample_world) = Some sample_hcdc /\
   ctxPointers sample_world = [100; 101]) /\
  USBD_CDC_DeInit 0 sample_world =
  Some (0,
        released sample_world
          [USBD_LL_CloseEP 0x81; USBD_LL_CloseEP 0x01; USBD_LL_CloseEP 0x82;
           USBD_LL_CloseEP 0x85; USBD_LL_CloseEP 0x05; USBD_LL_CloseEP 0x86;
           Itf_DeInit 100; Itf_DeInit 101; USBD_free]) /\
  (USBD_CDC_DeInit 0 ;; USBD_CDC_DeInit 0) sample_world =
  Some (0,
        released sample_world
          [USBD_LL_CloseEP 0x81; USBD_LL_CloseEP 0x01; USBD_LL_CloseEP 0x82;
           USBD_LL_CloseEP 0x85; USBD_LL_CloseEP 0x05; USBD_LL_CloseEP 0x86;
           Itf_DeInit 100; Itf_DeInit 101; USBD_free;
           USBD_LL_CloseEP 0x81; USBD_LL_CloseEP 0x01; USBD_LL_CloseEP 0x82;
           USBD_LL_CloseEP 0x85; USBD_LL_CloseEP 0x05; USBD_LL_CloseEP 0x86]).
Proof.
  split; [split; reflexivity |].
  destruct (DeInit_releases_once (H:=sample_board) sample_world sample_hcdc sample_fops
              0 100 101 eq_refl eq_refl eq_refl eq_refl)
    as (Hfirst & _ & Htwice).
  split; [exact Hfirst | exact Htwice].
Defined.

Lemma DeInit_then_Init_starts_afresh_witness :
  (TxState sample_hcdc = [0; 1] /\ TxState zeroed_block = [0; 0]) /\
  (USBD_CDC_DeInit 0 ;; USBD_CDC_Init (Some zeroed_block) 0) sample_world =
  Some (0,
        {| pdev := {| dev_speed := 1; pClassData := Some zeroed_block;
                      pUserData := Some sample_fops |};
           ctxPointers := [100; 101];
           trace :=
             [USBD_LL_CloseEP 0x81; USBD_LL_CloseEP 0x01; USBD_LL_CloseEP 0x82;
              USBD_LL_CloseEP 0x85; USBD_LL_CloseEP 0x05; USBD_LL_CloseEP 0x86;
              Itf_DeInit 100; Itf_DeInit 101; USBD_free;
              USBD_LL_OpenEP 0x81 2 64; USBD_LL_OpenEP 0x01 2 64;
              USBD_LL_OpenEP 0x85 2 64; USBD_LL_OpenEP 0x05 2 64;
              USBD_LL_OpenEP 0x82 3 8; USBD_LL_OpenEP 0x86 3 8;
              Itf_Init 0; Itf_Init 1;
              USBD_LL_PrepareReceive 0x01 0 64;
              USBD_LL_PrepareReceive 0x05 0 64] |}).
Proof.
  split; [split; reflexivity |].
  exact (proj1 (DeInit_then_Init_starts_afresh (H:=sample_board) sample_world sample_hcdc
                  zeroed_block sample_fops 0 100 101 0 0 0 0 0 0
                  eq_refl eq_refl eq_refl eq_refl eq_refl eq_refl eq_refl)).
Defined.

Lemma TxState_changes_only_on_transmit_and_completion_witness :
  let ops := [Do_Setup sample_out_req; Do_ReceivePacket 0; Do_EP0_RxReady;
              Do_DataOut (fun _ => 12) 0x05; Do_SetTxBuffer 1 0x4000 3] in
  forallb (fun op => negb (touches_TxState op)) ops = true /\
  exists w',
    run_all ops sample_world = Some (tt, w') /\
    keeps_TxState sample_world w'.
Proof.
  intros ops. split; [reflexivity |].
  eexists. split; [reflexivity |].
  apply (TxState_changes_only_on_transmit_and_completion (H:=sample_board) ops);
    reflexivity.
Defined.

Lemma opcode_invariant_from_Init_witness :
  (pUserData (pdev sample_unconfigured) = Some sample_fops /\
   CmdOpCode sample_ff_block = 0xFF /\
   awaiting_after sample_requests false = false /\
   awaiting_after [Do_Setup sample_out_req; Do_TransmitPacket 0] false = true) /\
  exists w1 w2 w',
    USBD_CDC_Init (Some sample_ff_block) 0 sample_unconfigured = Some (0, w1) /\
    run_all [Do_Setup sample_out_req; Do_TransmitPacket 0] w1 = Some (tt, w2) /\
    opcode_invariant true w2 /\
    CmdOpCode <$> pClassData (pdev w2) = Some 0x20 /\
    run_all sample_requests w1 = Some (tt, w') /\
    opcode_invariant false w' /\
    CmdOpCode <$> pClassData (pdev w') = Some 0xFF.
Proof.
  split; [repeat apply conj; reflexivity |].
  destruct (opcode_invariant_from_Init (H:=sample_board) sample_unconfigured
              sample_ff_block sample_fops 0 0 0 0 0 0 0 0 0
              eq_refl eq_refl eq_refl eq_refl eq_refl eq_refl eq_refl)
    as (w1 & Hinit & Hinv).
  assert (match USBD_CDC_Init (Some sample_ff_block) 0 sample_unconfigured with
          | Some (0, v1) =>
              match run_all [Do_Setup sample_out_req; Do_TransmitPacket 0] v1 with
              | Some (tt, v2) => CmdOpCode <$> pClassData (pdev v2) = Some 0x20
              | None => False
              end /\
              match run_all sample_requests v1 with
              | Some (tt, v') => CmdOpCode <$> pClassData (pdev v') = Some 0xFF
              | None => False
              end
          | _ => False
          end) as Hran by (vm_compute; apply conj; reflexivity).
  rewrite Hinit in Hran. destruct Hran as [Hmid Hend].
  destruct (run_all [Do_Setup sample_out_req; Do_TransmitPacket 0] w1)
    as [[[] w2] |] eqn:Hrun2; [| contradiction].
  destruct (run_all sample_requests w1) as [[[] w'] |] eqn:Hrun'; [| contradiction].
  exists w1, w2, w'.
  apply conj; [exact Hinit |].
  apply conj; [exact Hrun2 |].
  apply conj;
    [exact (Hinv [Do_Setup sample_out_req; Do_TransmitPacket 0] w2 Hrun2) |].
  apply conj; [exact Hmid |].
  apply conj; [exact Hrun' |].
  apply conj; [exact (Hinv sample_requests w' Hrun') | exact Hend].
Defined.

Lemma unregistered_is_undefined_witness :
  (pUserData (pdev sample_unregistered) = None /\
   stages_data sample_no_data_req = false) /\
  USBD_CDC_DataIn 0x81 sample_unregistered = None /\
  USBD_CDC_DataOut (fun _ => 12) 0x01 sample_unregistered = None /\
  USBD_CDC_DeInit 0 sample_unregistered = None /\
  USBD_CDC_Init (Some zeroed_block) 0 sample_unregistered = None /\
  USBD_CDC_Setup sample_no_data_req sample_unregistered = None.
Proof.
  split; [split; reflexivity |].
  destruct (unregistered_is_undefined (H:=sample_board) sample_unregistered
              (set_CmdLength 8 (set_CmdOpCode 0x20 sample_hcdc)) zeroed_block
              sample_no_data_req (fun _ => 12) 0x81 0 eq_refl eq_refl)
    as (Hin & _ & Hde & Hinit & Hsetup).
  destruct (unregistered_is_undefined (H:=sample_board) sample_unregistered
              (set_CmdLength 8 (set_CmdOpCode 0x20 sample_hcdc)) zeroed_block
              sample_no_data_req (fun _ => 12) 0x01 0 eq_refl eq_refl)
    as (_ & Hout & _).
  split; [exact Hin | split; [exact Hout | split; [exact Hde |]]].
  split; [exact Hinit | exact (Hsetup eq_refl eq_refl)].
Defined.

Lemma descriptor_lengths_match_witness :
  (10 <= USB_LEN_DEV_QUALIFIER_DESC < 256 /\
   Z.of_nat (length IADCDCTwoDescriptor) < 65536) /\
  USBD_CDC_GetDeviceQualifierDescriptor =
  (Some [0x0A; 0x06; 0x00; 0x02; 0x00; 0x00; 0x00; 0x40; 0x01; 0x00], 10) /\
  snd USBD_CDC_GetDeviceQualifierDescriptor =
  readable (fst USBD_CDC_GetDeviceQualifierDescriptor) /\
  snd USBD_CDC_GetFSCfgDesc = 4.
Proof.
  assert (10 <= USB_LEN_DEV_QUALIFIER_DESC < 256) as Hlen
    by (cbn; lia).
  assert (Z.of_nat (length IADCDCTwoDescriptor) < 65536) as Hcfg
    by (cbn; lia).
  split; [split; assumption |].
  destruct (descriptor_lengths_match (H:=sample_descriptors) Hlen Hcfg)
    as (Hq & _ & _ & Hfs & _).
  split; [reflexivity | split; [exact Hq | rewrite Hfs; reflexivity]].
Defined.

End Samples.
